(* ===== verification/_CoqProject ===== *)
-Q . S2P
Prelude.v
Battery.v
Json.v
Clock.v
Loop.v
Seeds.v
Args.v
Publish.v
Script.v
Store.v
Console.v
