(* ===== verification/Prelude.v ===== *)
(** * A verification development of [virtualBattery_to_ha.py]

    The program (src/virtualBattery_to_ha.py, one Python script) rebuilds
    the history of a simulated ("virtual") home battery from two hourly
    metered curves of a Home Assistant (HA) instance, the grid injection
    [sensor.linky_hourly_injection] and the grid consumption
    [sensor.linky_hourly_consumption], and writes three derived long-term
    statistics back to HA: the battery stock, the cumulative energy taken
    out of the battery ("battery out") and the cumulative energy taken
    from the grid operator ("Enedis out").

    ** Parts of the program and how they interact

    The script runs top to bottom, once:
    - configuration constants and the environment check (lines 13-33,
      77-80);
    - [getStatistics] (lines 43-63): one HTTP GET on HA's long-term
      statistics endpoint, returning [data["message"]] or [None];
    - the date range (lines 68-97): [--startDate]/[--endDate] parsed by
      [strptime], or yesterday;
    - the seeds (lines 99-155): the last battery stock (fatal when
      falsy, read as [state * 1000]), the last battery-out, Enedis-out,
      injection and consumption indices (0 when falsy), and the two
      hourly curves (fatal when falsy);
    - the hourly loop (lines 157-210), the core: for every pair of the
      [zip] of the two curves it checks that both rows carry the same
      date, turns the two cumulative indices into the hour's injected and
      consumed energy, credits the injection to the stock and serves the
      consumption from the stock, the shortfall going to the grid, and
      appends one record per output series;
    - the write-back (lines 213-263): three independent POSTs.
    Every error before the write-back ends the script with nothing sent.
    Every step prints a progress line on the console.

    ** Files, in dependency order, and what they model

    - [Prelude] (this file): the [result] error monad with its notation
      [x <- c ;; k] (scope [vb_scope]); the hint database [vb] and the
      tactics [zcase] (case on the script's comparisons), [inv_ok]
      (invert monadic equations) and [sorted_tac]; lemmas on
      [Sorted Z.le], [firstn] and [NoDup]; [forall_from], the checker of
      a range of integers behind the exhaustive calendar check.
    - [Battery] (Module [Battery]): the numeric core.  [BatteryState] is
      the record of the five loop variables ([previousBatteryStock],
      [previousBatteryOut], [previousEnedisOut], [previousInjectionIndex],
      [previousConsumtionIndex]); [hour] is the loop body of lines
      174-201 on the two cumulative sums of an hour; [run] iterates it and
      returns the snapshot after each hour, [final] the last state.
      [Battery.Spec] is the contract of the spec's sections 3 and 4.1
      (discharge = [min consumed (stock + injected)], and [simulate]).  The closed forms
      [hour_stock], [hour_out], [hour_enedis] (a rewrite database
      [vb_hour] and the tactic [hour_lia]) carry the proofs.
    - [Json]: the values [response.json()] gives, Python truthiness,
      [d[k]] with [KeyError]/[TypeError], numbers.
    - [Clock]: [datetime.fromtimestamp(ts, UTC+3)], the comparison of
      line 167 and [strftime]; the calendar is CPython's
      ([_ymd2ord]/[_ord2ymd], translated from its [datetime.py]); the
      injectivity of [zpad], [strftime] and [start_string].
    - [Loop]: the loop of lines 157-210 on the JSON rows ([iteration],
      [loop], [process] over [combine], which truncates like [zip]).
    - [Seeds]: the five seed reads and the two curve reads (lines
      99-155).
    - [Args]: [strptime(_, "%Y-%m-%d")] after CPython's [_strptime]
      regular expression, [replace(hour=0, ...)] and the range selection
      of lines 82-97.
    - [Publish]: the class [HomeAssistantApi] (a GET and a POST on a
      server type; the interface between the script and HA), the three
      payloads and the POSTs of lines 213-263.
    - [Script]: [getStatistics] with its query [statistics_params],
      [prepare] (lines 77-210) and [main] (lines 77-263) for any server;
      [index_answer], the answers of HA for an index; the steps
      [read_stock_step], [read_index_step], [read_curve_step] that carry
      the progress proof; [Recorder], a server answering GETs from a
      table and recording POSTs, for the concrete runs.
    - [Store]: a server of the interface that keeps what it imports and
      answers point reads with the last record at that start (the read
      and write contracts of the spec, section 6); it composes the
      write-back of one run with the seed reads of the next.
    - [Console]: the same script, lines 43-263, with its [print] calls,
      in a writer monad over [result] ([logged], notation [x <-- c ;; k]
      in [log_scope]): [prepareLog] and [mainLog] give the outcome and
      the lines printed; the tactic [val_step] and the hint database
      [console] show, step by step, that printing changes nothing
      ([val_prepareLog]), and the tactic [report_step] walks the lines
      of a run.

    ** What the theorems show (claims C1-C31)

    - The core ([Battery]): one hour refines the spec's min-based step
      (C1) and the whole loop refines the spec's [simulate] on the same
      cumulative samples (C29); energy is conserved per hour (C2) and
      over a run, telescoped against the meter indices (C5); the stock
      is never negative (C4); the grid draw never decreases (C8); the
      battery-out total decreases in an hour exactly when a meter goes
      backwards by more than the battery absorbs, and the decrease is
      billed to the grid (C15); the grid draw of a run is the worst
      deficit of the unconstrained balance and the stock is that balance
      reflected at 0 (C10).
    - The loop ([Loop]): on rows that decode it is [Battery.run] with the
      records dated by [start_string], otherwise it stops (C3); a date
      mismatch stops it whatever follows (C6); the three outputs are
      aligned, of length [min] of the two curves, so [zip] drops the
      unpaired hours (C11); stock records are non-negative (C12), Enedis
      sums sorted (C13), battery-out sums sorted when no meter index
      decreases (C9); distinct, printable injection timestamps give
      distinct [start] strings in every series (C25), which rests on
      [strftime] being injective on valid datetimes with 4-digit years
      ([Clock.strftime_inj]).
    - [Clock] (helper lemmas, no claim): [fromtimestamp] inverts
      [seconds_of_civil] ([civil_of_seconds_spec]); the calendar is
      checked exhaustively on one 400-year cycle ([ord_check_cycle], by
      [vm_compute]) and extended by periodicity, so the date check of
      line 167 compares timestamps ([fromtimestamp_eqb]).
    - Seeds and arguments: a stored stock of 0 stops the script (C14);
      a statistic without [sum] raises (C16); one date argument alone is
      ignored (C17); the default range is yesterday, midnight to
      midnight (C22), and the code's [replace(hour=0, ...)] on the
      calendar is the truncation of [now - 86400] to a multiple of a day
      (C26); [strptime] parses back the date part of the datetimes the
      script prints (C23) and accepts only existing dates (C24).
    - The whole run: all or nothing (C7); a missing stock stops it
      before any write (C18); every successful run is the loop started
      from the values it read, each from its own statistic and date
      (C19); the three POSTs are all sent, in order (C20), with record
      keys that match their [has_sum] flag (C27); and progress: an HA
      that answers a non-zero stock, each index with a [sum] or not at
      all, and two non-empty curves that decode, takes the run to the
      write-back with the loop's results (C28); the seed query at a
      naive date names the record whose UTC+3 wall time is that date,
      and no other (C30).
    - The console ([Console]): the values the lines "Battery Stock after
      consumption" print are, hour by hour, the stock records posted to
      HA, and no other line of the run is such a line (C21).
    - Two runs ([Store]): after a write-back, the next run at the naive
      date of the last hour written reads that hour's battery-out and
      Enedis-out sums as seeds, and 1000 times its stock, or stops when
      the stock is 0 (C31): the stock written in Wh under unit "kWh" is
      read back 1000 times larger, and an empty battery blocks every
      later run.

    ** Bounds and fuel

    No definition uses fuel: the loops are structural over the lists of
    rows, and the script has no other loop, so every definition is a
    [Definition] or a structural [Fixpoint] and the loop terminates by
    construction.  The calendar check runs over the 146097 days of one
    400-year cycle; [ord2ymd_shift] and [ymd2ord_shift] extend it to
    every ordinal, so the model's calendar is right for every date.
    [fromtimestamp] is total in the model, where CPython raises
    [ValueError] or [OverflowError] outside years 1 to 9999: the
    theorems that print or compare dates assume [Clock.printable_ts],
    the timestamps of the first 24 cycles (years 1 to 9600 in UTC+3,
    which the year bound of [ord2ymd_spec] places in that range), where
    the two agree.  [strftime] prints the year on four digits, as
    [isoformat] and CPython 3.12's [strftime] do; older versions print a
    year below 1000 unpadded, and C23 assumes years 1000 to 9999.

    ** Not modelled, and why

    - Energies and timestamps are Python numbers; they are modelled as
      [Z] (Wh, epoch seconds).  HA's Linky sums are integral Wh, so the
      model is exact on them; fractional values and float rounding are
      not modelled.
    - A truthy seed that is not a number is a [TypeError] at once in the
      model, where Python may fail later or not at all.
    - [argparse] (a library; the options arrive as option strings) and
      the HTTP transport: an exception raised by [requests], and the
      [JSONDecodeError] of [response.json()] on a 200 answer whose body
      is not JSON (the interface answers decoded JSON).
    - On the console, the text of a [ValueError] raised by [strptime]
      (line 90) and [res.text] of a failed POST (lines 233, 248, 263):
      they come from libraries; the lines [DatesError] and [PostError]
      keep what the code determines.
    - HA itself: it is not in the repository, so the server is the
      interface [HomeAssistantApi] and the theorems of [Script] hold for
      every server.  [Script.Recorder] and [Store.Store] are servers
      built from the spec's contracts for the witnesses and for C31, not
      translations of HA: the real endpoint may answer point reads with
      more fields or with the record before the date, which C31 does not
      cover.
    - Non-ASCII digits in [strptime]. *)

From Stdlib Require Export ZArith Lia List Sorted.
Import ListNotations.
Open Scope Z_scope.

(** ** The error monad of the development *)

(** A computation of the script either goes on with a value or stops;
    the reasons for stopping are given by each component. *)
Inductive result (A E : Type) : Type :=
| Ok (a : A)
| Err (e : E).
Arguments Ok {A E} a.
Arguments Err {A E} e.

Definition bind {A B E} (r : result A E) (k : A -> result B E) : result B E :=
  match r with
  | Ok a => k a
  | Err e => Err e
  end.

Declare Scope vb_scope.
Delimit Scope vb_scope with vb.
Notation "x <- c ;; k" := (bind c (fun x => k))
  (at level 61, c at next level, right associativity) : vb_scope.
Notation "' pat <- c ;; k" := (bind c (fun x => match x with pat => k end))
  (at level 61, pat pattern, c at next level, right associativity) : vb_scope.

Definition is_ok {A E} (r : result A E) : bool :=
  match r with Ok _ => true | Err _ => false end.

Lemma bind_Ok_inv {A B E} (r : result A E) (k : A -> result B E) b :
  bind r k = Ok b -> exists a, r = Ok a /\ k a = Ok b.
Proof. destruct r; simpl; [eauto | discriminate]. Qed.

Lemma bind_Err_inv {A B E} (r : result A E) (k : A -> result B E) e :
  bind r k = Err e -> r = Err e \/ exists a, r = Ok a /\ k a = Err e.
Proof. destruct r; simpl; [right; eauto | left; congruence]. Qed.

Lemma bind_Ok {A B E} (a : A) (k : A -> result B E) : bind (Ok a) k = k a.
Proof. reflexivity. Qed.

(** ** Automation *)

Create HintDb vb discriminated.

(** Case analysis on the comparisons the script makes. *)
Ltac zcase :=
  match goal with
  | |- context [ (?a >=? ?b) ] => destruct (Z.geb_spec a b)
  | |- context [ (?a <=? ?b) ] => destruct (Z.leb_spec a b)
  | |- context [ (?a =? ?b) ] => destruct (Z.eqb_spec a b)
  end.

(** Invert the equations of the result monad in the hypotheses. *)
Ltac inv_ok :=
  repeat match goal with
  | H : Ok _ = Ok _ |- _ => injection H as H; subst
  | H : Err _ = Err _ |- _ => injection H as H; subst
  | H : Ok _ = Err _ |- _ => discriminate H
  | H : Err _ = Ok _ |- _ => discriminate H
  | H : bind _ _ = Ok _ |- _ =>
      let a := fresh "a" in let Ha := fresh "Ha" in
      apply bind_Ok_inv in H; destruct H as (a & Ha & H)
  end.

(** ** Generic lemmas on sorted lists of integers *)

(** [Sorted Z.le] is the "non-decreasing" of the spec. *)
Lemma sorted_cons_le (a b : Z) (l : list Z) :
  a <= b -> Sorted Z.le (b :: l) -> Sorted Z.le (a :: b :: l).
Proof. intros H Hs. constructor; [exact Hs | constructor; exact H]. Qed.

Lemma sorted_head_le (a b : Z) (l : list Z) :
  Sorted Z.le (a :: b :: l) -> a <= b.
Proof. intros H. apply Sorted_inv in H as [_ H]. now inversion H. Qed.

Lemma sorted_tail (a : Z) (l : list Z) : Sorted Z.le (a :: l) -> Sorted Z.le l.
Proof. intros H. now apply Sorted_inv in H. Qed.

(** Prove [Sorted Z.le] of a concrete list. *)
Ltac sorted_tac :=
  repeat (apply Sorted_cons || apply Sorted_nil || apply HdRel_cons || apply HdRel_nil);
  try lia.

#[export] Hint Resolve sorted_cons_le sorted_head_le sorted_tail : vb.

(** ** Generic lemmas on prefixes *)

Lemma In_firstn {A} (n : nat) (l : list A) (x : A) : In x (firstn n l) -> In x l.
Proof. intros H. rewrite <- (firstn_skipn n l). apply in_or_app. now left. Qed.

Lemma NoDup_firstn {A} (n : nat) (l : list A) : NoDup l -> NoDup (firstn n l).
Proof. intros H. rewrite <- (firstn_skipn n l) in H. exact (NoDup_app_remove_r _ _ H). Qed.

(** ** Exhaustive checks over a range of integers *)

(** [f k && f (k+1) && ... && f (k+n-1)]: a decision procedure that
    [vm_compute] runs on a concrete range. *)
Fixpoint forall_from (f : Z -> bool) (k : Z) (n : nat) : bool :=
  match n with
  | O => true
  | S n' => f k && forall_from f (k + 1) n'
  end.

Lemma forall_from_spec (f : Z -> bool) (k : Z) (n : nat) :
  forall_from f k n = true -> forall j, k <= j < k + Z.of_nat n -> f j = true.
Proof.
  revert k; induction n as [|n IH]; intros k H j Hj; [lia|].
  simpl in H. apply andb_prop in H as [Hk Hn].
  destruct (Z.eq_dec j k) as [->|Hne]; [exact Hk|].
  apply (IH (k + 1) Hn). lia.
Qed.
