(* ===== verification/Battery.v ===== *)
(** * Battery: the numeric core of the hourly loop

    [BatteryState] holds the five variables the loop of
    src/virtualBattery_to_ha.py threads from one hour to the next;
    [hour] is the body of that loop on the two cumulative sums of one
    hour (lines 174-201); [run] iterates it over consecutive hours and
    returns the snapshot taken after each hour (the values lines 203-210
    append).  [Spec] is the contract of the spec (section 3): the
    discharge of an hour is [min consumed (stock + injected)]. *)

From S2P Require Import Prelude.
Import ListNotations.
Open Scope Z_scope.

Module Battery.

(** ** State and operations *)

(** The loop variables of the script, in Wh. *)
Record BatteryState := mkBatteryState {
  previousBatteryStock : Z;
  previousBatteryOut : Z;
  previousEnedisOut : Z;
  previousInjectionIndex : Z;
  previousConsumtionIndex : Z
}.

(** Line 175: the energy injected during the hour. *)
Definition injectedEnergy (s : BatteryState) (injectionSum : Z) : Z :=
  injectionSum - previousInjectionIndex s.

(** Line 177: the energy consumed during the hour. *)
Definition consumedEnergy (s : BatteryState) (consumptionSum : Z) : Z :=
  consumptionSum - previousConsumtionIndex s.

(** Lines 174-201: one hour.  The injection is credited to the stock
    (line 183); if the stock covers the consumption it is served from
    the stock (lines 188-190), otherwise the stock is emptied and the
    rest is taken from the grid (lines 195-200). *)
Definition hour (s : BatteryState) (injectionSum consumptionSum : Z) : BatteryState :=
  let injected := injectedEnergy s injectionSum in
  let consumed := consumedEnergy s consumptionSum in
  let stock := previousBatteryStock s + injected in
  if stock >=? consumed then
    {| previousBatteryStock := stock - consumed;
       previousBatteryOut := previousBatteryOut s + consumed;
       previousEnedisOut := previousEnedisOut s;
       previousInjectionIndex := injectionSum;
       previousConsumtionIndex := consumptionSum |}
  else
    let energyTakenFromEnedis := consumed - stock in
    {| previousBatteryStock := 0;
       previousBatteryOut := previousBatteryOut s + stock;
       previousEnedisOut := previousEnedisOut s + energyTakenFromEnedis;
       previousInjectionIndex := injectionSum;
       previousConsumtionIndex := consumptionSum |}.

(** The loop over consecutive hours, each given by its two cumulative
    sums (injection, consumption): the snapshot after every hour. *)
Fixpoint run (s : BatteryState) (hs : list (Z * Z)) : list BatteryState :=
  match hs with
  | [] => []
  | (i, c) :: hs' => let s' := hour s i c in s' :: run s' hs'
  end.

(** The state after the last hour. *)
Definition final (s : BatteryState) (hs : list (Z * Z)) : BatteryState :=
  fold_left (fun t '(i, c) => hour t i c) hs s.

(** ** The contract of the spec *)

Module Spec.
(** The three quantities of the spec's [BatteryState]. *)
Record Ledger := mkLedger { stock : Z; discharge : Z; grid : Z }.

(** [dischargedThisHour] of the spec, section 3. *)
Definition discharged (l : Ledger) (injected consumed : Z) : Z :=
  Z.min consumed (stock l + injected).

Definition step (l : Ledger) (injected consumed : Z) : Ledger :=
  let d := discharged l injected consumed in
  {| stock := stock l + injected - d;
     discharge := discharge l + d;
     grid := grid l + (consumed - d) |}.

(** [simulate] of the spec (section 4.1) from the ledger and the two
    initial indices: each hour's energies are the differences of the
    cumulative samples (steps 1-2), then [step] (steps 3-4); one ledger
    per hour (step 5). *)
Fixpoint simulate (l : Ledger) (injectionIndex consumptionIndex : Z) (hs : list (Z * Z))
  : list Ledger :=
  match hs with
  | [] => []
  | (i, c) :: hs' =>
      let l' := step l (i - injectionIndex) (c - consumptionIndex) in
      l' :: simulate l' i c hs'
  end.
End Spec.

Definition ledger (s : BatteryState) : Spec.Ledger :=
  {| Spec.stock := previousBatteryStock s;
     Spec.discharge := previousBatteryOut s;
     Spec.grid := previousEnedisOut s |}.

(** ** Closed forms of one hour *)

Section HourLemmas.
Variables (s : BatteryState) (i c : Z).
Let inj := injectedEnergy s i.
Let cons := consumedEnergy s c.

Lemma hour_stock :
  previousBatteryStock (hour s i c) = Z.max 0 (previousBatteryStock s + inj - cons).
Proof. unfold hour, inj, cons; simpl; zcase; simpl; lia. Qed.

Lemma hour_out :
  previousBatteryOut (hour s i c) =
  previousBatteryOut s + Z.min cons (previousBatteryStock s + inj).
Proof. unfold hour, inj, cons; simpl; zcase; simpl; lia. Qed.

Lemma hour_enedis :
  previousEnedisOut (hour s i c) =
  previousEnedisOut s + Z.max 0 (cons - (previousBatteryStock s + inj)).
Proof. unfold hour, inj, cons; simpl; zcase; simpl; lia. Qed.

Lemma hour_injectionIndex : previousInjectionIndex (hour s i c) = i.
Proof. unfold hour; simpl; zcase; reflexivity. Qed.

Lemma hour_consumptionIndex : previousConsumtionIndex (hour s i c) = c.
Proof. unfold hour; simpl; zcase; reflexivity. Qed.
End HourLemmas.

Create Rewrite HintDb vb_hour.
#[export] Hint Rewrite hour_stock hour_out hour_enedis hour_injectionIndex
  hour_consumptionIndex : vb_hour.

(** Rewrite every field of [hour] to its closed form, then close by
    linear arithmetic. *)
Ltac hour_lia :=
  unfold injectedEnergy, consumedEnergy in *;
  autorewrite with vb_hour in *;
  unfold injectedEnergy, consumedEnergy in *; lia.

Lemma run_cons (s : BatteryState) (i c : Z) (hs : list (Z * Z)) :
  run s ((i, c) :: hs) = hour s i c :: run (hour s i c) hs.
Proof. reflexivity. Qed.

Lemma final_cons (s : BatteryState) (i c : Z) (hs : list (Z * Z)) :
  final s ((i, c) :: hs) = final (hour s i c) hs.
Proof. reflexivity. Qed.

Lemma final_app (s : BatteryState) (hs1 hs2 : list (Z * Z)) :
  final s (hs1 ++ hs2) = final (final s hs1) hs2.
Proof. unfold final. now rewrite fold_left_app. Qed.

Lemma length_run (s : BatteryState) (hs : list (Z * Z)) : length (run s hs) = length hs.
Proof. revert s; induction hs as [|[i c] hs IH]; intros s; simpl; auto. Qed.

(** Induction principle for properties that hold of every snapshot. *)
Lemma run_Forall (P : BatteryState -> Prop) (s : BatteryState) (hs : list (Z * Z)) :
  (forall t i c, P (hour t i c)) -> Forall P (run s hs).
Proof.
  intros H. revert s; induction hs as [|[i c] hs IH]; intros s; constructor; auto.
Qed.

(** A quantity no hour decreases never decreases along a run. *)
Lemma run_monotone (f : BatteryState -> Z) (s : BatteryState) (hs : list (Z * Z)) :
  (forall t i c, f t <= f (hour t i c)) -> Sorted Z.le (map f (s :: run s hs)).
Proof.
  intros H. revert s; induction hs as [|[i c] hs IH]; intros s; [repeat constructor|].
  rewrite run_cons. apply sorted_cons_le; [apply H | apply IH].
Qed.

(** The cumulative battery-out never decreases along a run, provided
    the initial stock is non-negative and neither meter index decreases
    (no meter reset). *)
Lemma run_out_monotone (s : BatteryState) (hs : list (Z * Z)) :
  0 <= previousBatteryStock s ->
  Sorted Z.le (previousInjectionIndex s :: map fst hs) ->
  Sorted Z.le (previousConsumtionIndex s :: map snd hs) ->
  Sorted Z.le (map previousBatteryOut (s :: run s hs)).
Proof.
  revert s; induction hs as [|[i c] hs IH]; intros s Hs Hi Hc; [repeat constructor|].
  simpl in Hi, Hc. pose proof (sorted_head_le _ _ _ Hi). pose proof (sorted_head_le _ _ _ Hc).
  rewrite run_cons. apply sorted_cons_le; [hour_lia|].
  apply IH; [hour_lia | |]; rewrite ?hour_injectionIndex, ?hour_consumptionIndex; eauto with vb.
Qed.


(** A quantity kept by every hour is kept by every snapshot. *)
Lemma run_preserves (f : BatteryState -> Z) (s : BatteryState) (hs : list (Z * Z)) :
  (forall t i c, f (hour t i c) = f t) -> Forall (fun t => f t = f s) (run s hs).
Proof.
  intros H. revert s; induction hs as [|[i c] hs IH]; intros s; constructor.
  - apply H.
  - specialize (IH (hour s i c)).
    rewrite H in IH. exact IH.
Qed.

(** Quantities the hour keeps: the stock plus the energy served by the
    battery, minus the injection index; the energy served by the battery
    plus the energy taken from the grid, minus the consumption index. *)
Definition stock_balance (s : BatteryState) : Z :=
  previousBatteryStock s + previousBatteryOut s - previousInjectionIndex s.

Definition meter_balance (s : BatteryState) : Z :=
  previousBatteryOut s + previousEnedisOut s - previousConsumtionIndex s.

(** The unconstrained balance after an hour whose cumulative sums are
    [i] and [c], counted from [s]: the stock the battery would hold if it
    could go negative. *)
Definition free_balance (s : BatteryState) (i c : Z) : Z :=
  previousBatteryStock s + (i - previousInjectionIndex s) - (c - previousConsumtionIndex s).

(** The worst deficit of the unconstrained balance over the hours,
    starting from [d]. *)
Fixpoint deficit_from (s : BatteryState) (d : Z) (hs : list (Z * Z)) : Z :=
  match hs with
  | [] => d
  | (i, c) :: hs' => deficit_from s (Z.max d (- free_balance s i c)) hs'
  end.

Definition worst_deficit (s : BatteryState) (hs : list (Z * Z)) : Z :=
  deficit_from s 0 hs.

(** The grid draw and the stock of any state reached from [s] are given
    by the deficit accumulated so far. *)
Lemma deficit_from_final (s t : BatteryState) (d : Z) (hs : list (Z * Z)) :
  previousBatteryStock t =
    free_balance s (previousInjectionIndex t) (previousConsumtionIndex t) + d ->
  previousEnedisOut t = previousEnedisOut s + d ->
  previousEnedisOut (final t hs) = previousEnedisOut s + deficit_from s d hs /\
  previousBatteryStock (final t hs) =
    free_balance s (previousInjectionIndex (final t hs))
      (previousConsumtionIndex (final t hs)) + deficit_from s d hs.
Proof.
  revert t d; induction hs as [|[i c] hs IH]; intros t d Hst Hen; [split; assumption|].
  rewrite final_cons; simpl. apply IH.
  all: unfold free_balance in *; hour_lia.
Qed.

(** ** Properties of the core *)

(** C1: One hour of the code implements the contract of the spec: the
    stock, the battery-out and the grid-draw totals move as in
    [Spec.step] with [dischargedThisHour = min consumed (stock +
    injected)], and the two meter indices become the hour's sums. *)
Theorem hour_refines_spec (s : BatteryState) (i c : Z) :
  ledger (hour s i c) = Spec.step (ledger s) (injectedEnergy s i) (consumedEnergy s c) /\
  previousInjectionIndex (hour s i c) = i /\
  previousConsumtionIndex (hour s i c) = c.
Proof.
  unfold ledger, Spec.step, Spec.discharged; simpl.
  rewrite hour_stock, hour_out, hour_enedis, hour_injectionIndex, hour_consumptionIndex.
  repeat split. f_equal; lia.
Qed.

(** C2: Energy conservation per hour: the stock after the hour plus the
    energy served by the battery equals the stock before plus the
    injection, and the energy served by the battery plus the energy
    taken from the grid equals the consumption. *)
Theorem hour_conservation (s : BatteryState) (i c : Z) :
  previousBatteryStock (hour s i c) + (previousBatteryOut (hour s i c) - previousBatteryOut s)
    = previousBatteryStock s + injectedEnergy s i /\
  (previousBatteryOut (hour s i c) - previousBatteryOut s)
    + (previousEnedisOut (hour s i c) - previousEnedisOut s)
    = consumedEnergy s c.
Proof. split; hour_lia. Qed.

(** C4: Every stock snapshot of a run is non-negative, whatever the
    initial state and the meter readings (even negative ones). *)
Theorem run_stock_nonneg (s : BatteryState) (hs : list (Z * Z)) :
  Forall (fun t => 0 <= previousBatteryStock t) (run s hs).
Proof. apply run_Forall; intros; hour_lia. Qed.

(** C8: The cumulative grid draw never decreases along a run,
    unconditionally. *)
Theorem run_enedis_nondecreasing (s : BatteryState) (hs : list (Z * Z)) :
  Sorted Z.le (map previousEnedisOut (s :: run s hs)).
Proof. apply run_monotone; intros; hour_lia. Qed.

(** C15: The battery-out total decreases in an hour exactly when a
    meter goes backwards by more than the battery can absorb: a negative
    consumed energy, or an injected energy so negative that the stock
    after the injection is below 0 (a reset of the injection meter).
    The decrease is then billed to the grid: the grid draw grows by
    more than the consumption. *)
Theorem out_decreases_on_meter_reset (s : BatteryState) (i c : Z) :
  (previousBatteryOut (hour s i c) < previousBatteryOut s <->
   consumedEnergy s c < 0 \/ previousBatteryStock s + injectedEnergy s i < 0) /\
  (0 <= consumedEnergy s c -> previousBatteryStock s + injectedEnergy s i < 0 ->
   previousEnedisOut (hour s i c) - previousEnedisOut s > consumedEnergy s c).
Proof. split; [split|]; intros; hour_lia. Qed.

(** C5: Conservation over a whole run: every snapshot keeps
    [stock + batteryOut - injectionIndex] and
    [batteryOut + enedisOut - consumptionIndex] of the initial state, so
    the totals telescope against the meter indices. *)
Theorem run_conservation (s : BatteryState) (hs : list (Z * Z)) :
  Forall (fun t => stock_balance t = stock_balance s) (run s hs) /\
  Forall (fun t => meter_balance t = meter_balance s) (run s hs).
Proof.
  split; apply run_preserves; intros; unfold stock_balance, meter_balance; hour_lia.
Qed.

(** C10: The grid draw of a run is the worst deficit of the unconstrained
    balance [stock0 + injected so far - consumed so far] (0 if it never
    goes negative), and the final stock is that balance plus the same
    deficit: the stock is the balance reflected at 0. *)
Theorem final_grid_draw (s : BatteryState) (hs : list (Z * Z)) :
  previousEnedisOut (final s hs) = previousEnedisOut s + worst_deficit s hs /\
  previousBatteryStock (final s hs) =
    free_balance s (previousInjectionIndex (final s hs))
      (previousConsumtionIndex (final s hs)) + worst_deficit s hs.
Proof. apply deficit_from_final; unfold free_balance; lia. Qed.

(** C29: The whole loop refines the spec's [simulate]: the stock,
    battery-out and grid-draw snapshots after every hour are the ledgers
    [simulate] produces from the seeds on the same cumulative samples. *)
Theorem run_refines_simulate (s : BatteryState) (hs : list (Z * Z)) :
  map ledger (run s hs) =
  Spec.simulate (ledger s) (previousInjectionIndex s) (previousConsumtionIndex s) hs.
Proof.
  revert s; induction hs as [|[i c] hs IH]; intros s; [reflexivity|].
  assert (H : ledger (hour s i c) =
    Spec.step (ledger s) (i - previousInjectionIndex s) (c - previousConsumtionIndex s)).
  { unfold ledger, Spec.step, Spec.discharged. cbn [Spec.stock Spec.discharge Spec.grid].
    f_equal; hour_lia. }
  rewrite run_cons. cbn [map Spec.simulate].
  rewrite IH, hour_injectionIndex, hour_consumptionIndex, H. reflexivity.
Qed.

End Battery.
