(* ===== verification/Json.v ===== *)
(** * Json: the Python values the script reads from Home Assistant

    [response.json()] gives the script nested dicts, lists, numbers,
    strings, booleans and [None].  This file models those values, the
    three Python operations the script applies to them (truthiness in
    [if not x], subscription [x["key"]], and use as a number in [+], [-],
    [*] and [datetime.fromtimestamp]) and the exceptions these raise. *)

From S2P Require Import Prelude.
From Stdlib Require Import String.
Import ListNotations.
Open Scope Z_scope.
Local Open Scope vb_scope.
Local Set Warnings "-register-all".

Module Json.

(** A JSON value as decoded by Python's [json] module.  Numbers are
    integral (see the header of [Prelude]). *)
Inductive json : Type :=
| JNull
| JBool (b : bool)
| JNum (z : Z)
| JStr (s : string)
| JList (l : list json)
| JObj (fields : list (string * json)).

(** The exceptions the script can raise on such values. *)
Inductive py_error : Type :=
| KeyError (key : string)
| TypeError.

(** Python's truth value: [None], [False], [0], [""], [[]] and [{}] are
    false. *)
Definition truthy (v : json) : bool :=
  match v with
  | JNull => false
  | JBool b => b
  | JNum z => negb (z =? 0)
  | JStr s => negb (String.eqb s "")
  | JList l => match l with [] => false | _ => true end
  | JObj fs => match fs with [] => false | _ => true end
  end.

(** The value a dict decoded by [json.loads] binds to [k]: with
    duplicate keys the last one wins. *)
Definition assoc_last (k : string) (fs : list (string * json)) : option json :=
  fold_left (fun acc '(k', v) => if String.eqb k' k then Some v else acc) fs None.

(** [v[k]]: a dict lookup that raises [KeyError] on a missing key; any
    other value subscripted by a string raises [TypeError]. *)
Definition getitem (v : json) (k : string) : result json py_error :=
  match v with
  | JObj fs =>
      match assoc_last k fs with
      | Some x => Ok x
      | None => Err (KeyError k)
      end
  | _ => Err TypeError
  end.

(** A value used as a number: an int, or a bool (Python's [True] is 1);
    anything else raises [TypeError]. *)
Definition as_number (v : json) : result Z py_error :=
  match v with
  | JNum z => Ok z
  | JBool b => Ok (if b then 1 else 0)
  | _ => Err TypeError
  end.

(** [v[k]] used as a number. *)
Definition number_at (v : json) (k : string) : result Z py_error :=
  x <- getitem v k ;; as_number x.

(** ** Lemmas *)

Lemma getitem_single (k : string) (v : json) : getitem (JObj [(k, v)]) k = Ok v.
Proof. unfold getitem, assoc_last; simpl. now rewrite String.eqb_refl. Qed.

Lemma number_at_num (fs : list (string * json)) (k : string) (z : Z) :
  assoc_last k fs = Some (JNum z) -> number_at (JObj fs) k = Ok z.
Proof. intros H. unfold number_at, getitem. now rewrite H. Qed.

Lemma truthy_num (z : Z) : truthy (JNum z) = true <-> z <> 0.
Proof. simpl. destruct (Z.eqb_spec z 0); simpl; split; congruence. Qed.

End Json.
