(* ===== verification/Clock.v ===== *)
(** * Clock: timestamps, calendar dates and their strings

    The script turns the [start_ts] of each hourly statistic (epoch
    seconds) into an aware datetime in UTC+3 with
    [datetime.fromtimestamp(ts, tz=timezone(timedelta(hours=GMT_INT)))]
    (lines 164-165), compares the two datetimes of an hour (line 167) and
    prints them with [strftime('%Y-%m-%d %H:%M:%S')] followed by [GMT]
    (lines 203-210).  The dates of the range are naive datetimes moved by
    [timedelta] and printed by [isoformat(sep=' ')] (lines 51-54, 94-96,
    138, 152).

    The calendar is the proleptic Gregorian calendar of CPython's
    [datetime] module, translated from its pure-Python implementation
    ([_is_leap], [_days_before_year], [_days_before_month], [_ymd2ord],
    [_ord2ymd]); the script's own lines only call it.  A datetime is a
    record of its six fields; seconds are whole (the statistics start on
    the hour).  The last part shows that [zpad], [strftime] and
    [start_string] are injective where the year fits on four digits. *)

From S2P Require Import Prelude.
From Stdlib Require Import String Ascii Bool.
Import ListNotations.
Open Scope Z_scope.

Module Clock.

(** Lines 32-33. *)
Definition GMT_INT : Z := 3.
Definition GMT : string := "+03:00".

Record datetime := mkDatetime {
  year : Z; month : Z; day : Z; hour : Z; minute : Z; second : Z
}.

(** ** The calendar of CPython's [datetime] *)

Definition _is_leap (y : Z) : bool :=
  (y mod 4 =? 0) && (negb (y mod 100 =? 0) || (y mod 400 =? 0)).

Definition _DAYS_IN_MONTH (m : Z) : Z :=
  nth (Z.to_nat m) [-1; 31; 28; 31; 30; 31; 30; 31; 31; 30; 31; 30; 31] (-1).

Definition _DAYS_BEFORE_MONTH (m : Z) : Z :=
  nth (Z.to_nat m) [-1; 0; 31; 59; 90; 120; 151; 181; 212; 243; 273; 304; 334] (-1).

Definition _days_before_year (y : Z) : Z :=
  let y := y - 1 in y * 365 + y / 4 - y / 100 + y / 400.

Definition _days_in_month (y m : Z) : Z :=
  if (m =? 2) && _is_leap y then 29 else _DAYS_IN_MONTH m.

Definition _days_before_month (y m : Z) : Z :=
  _DAYS_BEFORE_MONTH m + (if (m >? 2) && _is_leap y then 1 else 0).

Definition _ymd2ord (y m d : Z) : Z :=
  _days_before_year y + _days_before_month y m + d.

Definition _DI400Y : Z := 146097.
Definition _DI100Y : Z := 36524.
Definition _DI4Y : Z := 1461.

(** [_ord2ymd]: the date of the proleptic ordinal [n] (day 1 is
    0001-01-01). *)
Definition _ord2ymd (n : Z) : Z * Z * Z :=
  let n := n - 1 in
  let n400 := n / _DI400Y in
  let n := n mod _DI400Y in
  let year := n400 * 400 + 1 in
  let n100 := n / _DI100Y in
  let n := n mod _DI100Y in
  let n4 := n / _DI4Y in
  let n := n mod _DI4Y in
  let n1 := n / 365 in
  let n := n mod 365 in
  let year := year + n100 * 100 + n4 * 4 + n1 in
  if (n1 =? 4) || (n100 =? 4) then (year - 1, 12, 31)
  else
    let leapyear := (n1 =? 3) && (negb (n4 =? 24) || (n100 =? 3)) in
    let month := Z.shiftr (n + 50) 5 in
    let preceding := _DAYS_BEFORE_MONTH month + (if (month >? 2) && leapyear then 1 else 0) in
    let '(month, preceding) :=
      if preceding >? n then
        let month := month - 1 in
        (month, preceding - (_DAYS_IN_MONTH month + (if (month =? 2) && leapyear then 1 else 0)))
      else (month, preceding) in
    (year, month, n - preceding + 1).

(** The proleptic ordinal of 1970-01-01. *)
Definition EPOCH_ORDINAL : Z := 719163.

(** The civil datetime [t] seconds after 1970-01-01 00:00:00, as
    [time.gmtime] computes it. *)
Definition civil_of_seconds (t : Z) : datetime :=
  let days := t / 86400 in
  let secs := t mod 86400 in
  let '(y, m, d) := _ord2ymd (days + EPOCH_ORDINAL) in
  mkDatetime y m d (secs / 3600) ((secs mod 3600) / 60) (secs mod 60).

(** The seconds of a civil datetime since 1970-01-01 00:00:00. *)
Definition seconds_of_civil (dt : datetime) : Z :=
  (_ymd2ord (year dt) (month dt) (day dt) - EPOCH_ORDINAL) * 86400
  + hour dt * 3600 + minute dt * 60 + second dt.

(** Lines 164-165: [datetime.fromtimestamp(ts, tz=UTC+3)]: the UTC
    civil time of [ts] moved by the offset ([timezone.fromutc]).
    CPython raises [ValueError] or [OverflowError] when the result falls
    outside years 1 to 9999; the model is total and gives the proleptic
    date there.  The theorems that depend on the printed year assume
    [printable_ts] (years 1 to 9600), where the two agree. *)
Definition fromtimestamp (ts : Z) : datetime :=
  civil_of_seconds (ts + GMT_INT * 3600).

(** Line 167: two aware datetimes with the same offset are equal when
    their fields are. *)
Definition datetime_eqb (a b : datetime) : bool :=
  (year a =? year b) && (month a =? month b) && (day a =? day b) &&
  (hour a =? hour b) && (minute a =? minute b) && (second a =? second b).

(** ** Printing *)

Definition digit (d : Z) : ascii := ascii_of_nat (48 + Z.to_nat d).

(** [n] on [w] digits with leading zeros. *)
Fixpoint zpad (w : nat) (n : Z) : string :=
  match w with
  | O => ""
  | S w' => zpad w' (n / 10) ++ String (digit (n mod 10)) ""
  end.

(** [strftime('%Y-%m-%d %H:%M:%S')], and [isoformat(sep=' ')] of a
    datetime without microseconds, which prints the same.  The year is
    padded to four digits, as [isoformat] always does and as CPython's
    [strftime] does since 3.12 on glibc; older versions of [strftime]
    print a year below 1000 without leading zeros.  The two agree for
    years 1000 to 9999; below, the theorems are about the padded
    printing. *)
Definition strftime (dt : datetime) : string :=
  zpad 4 (year dt) ++ "-" ++ zpad 2 (month dt) ++ "-" ++ zpad 2 (day dt) ++ " " ++
  zpad 2 (hour dt) ++ ":" ++ zpad 2 (minute dt) ++ ":" ++ zpad 2 (second dt).

(** Lines 203, 206, 209: the [start] of an output record. *)
Definition start_string (ts : Z) : string := strftime (fromtimestamp ts) ++ GMT.

(** A datetime whose fields are in their ranges. *)
Definition valid_datetime (dt : datetime) : Prop :=
  1 <= month dt <= 12 /\ 1 <= day dt <= _days_in_month (year dt) (month dt) /\
  0 <= hour dt < 24 /\ 0 <= minute dt < 60 /\ 0 <= second dt < 60.

(** ** The calendar over one 400-year cycle, checked exhaustively *)

(** What [_ord2ymd] must satisfy at ordinal [r + 1] of the first cycle:
    [_ymd2ord] inverts it and the date is valid, in years 1 to 400. *)
Definition ord_check (r : Z) : bool :=
  let '(y, m, d) := _ord2ymd (r + 1) in
  (_ymd2ord y m d =? r + 1) && (1 <=? m) && (m <=? 12) &&
  (1 <=? d) && (d <=? _days_in_month y m) && (1 <=? y) && (y <=? 400).

Lemma ord_check_cycle : forall_from ord_check 0 (Z.to_nat _DI400Y) = true.
Proof. vm_compute. reflexivity. Qed.

Lemma ord_check_ok (r : Z) : 0 <= r < _DI400Y -> ord_check r = true.
Proof.
  intros Hr. apply (forall_from_spec _ 0 (Z.to_nat _DI400Y) ord_check_cycle).
  rewrite Z2Nat.id; unfold _DI400Y in *; lia.
Qed.

(** ** The calendar is periodic with period 400 years *)

Lemma ord2ymd_shift (q r : Z) :
  0 <= r < _DI400Y ->
  _ord2ymd (q * _DI400Y + r + 1) =
  let '(y, m, d) := _ord2ymd (r + 1) in (y + 400 * q, m, d).
Proof.
  intros Hr. unfold _ord2ymd, _DI400Y in *.
  replace (q * 146097 + r + 1 - 1) with (r + q * 146097) by lia.
  replace (r + 1 - 1) with r by lia.
  rewrite Z_div_plus_full, Z_mod_plus_full by lia.
  rewrite (Z.div_small r 146097), (Z.mod_small r 146097) by lia.
  cbv zeta.
  repeat (match goal with |- context [if ?b then _ else _] => destruct b end; cbv beta iota).
  all: f_equal; f_equal; lia.
Qed.

Lemma is_leap_shift (y q : Z) : _is_leap (y + 400 * q) = _is_leap y.
Proof.
  unfold _is_leap.
  replace (y + 400 * q) with (y + (100 * q) * 4) by lia. rewrite Z_mod_plus_full.
  replace (y + 100 * q * 4) with (y + (4 * q) * 100) by lia. rewrite Z_mod_plus_full.
  replace (y + 4 * q * 100) with (y + q * 400) by lia. rewrite Z_mod_plus_full.
  reflexivity.
Qed.

Lemma days_in_month_shift (y m q : Z) : _days_in_month (y + 400 * q) m = _days_in_month y m.
Proof. unfold _days_in_month. now rewrite is_leap_shift. Qed.

Lemma ymd2ord_shift (y m d q : Z) :
  _ymd2ord (y + 400 * q) m d = _ymd2ord y m d + _DI400Y * q.
Proof.
  unfold _ymd2ord, _days_before_month, _days_before_year, _DI400Y.
  rewrite is_leap_shift. Z.div_mod_to_equations. lia.
Qed.

(** [_ymd2ord] inverts [_ord2ymd] at every ordinal, the dates are
    valid, and the year is in the 400-year cycle of the ordinal. *)
Lemma ord2ymd_spec (n : Z) :
  let '(y, m, d) := _ord2ymd n in
  _ymd2ord y m d = n /\ 1 <= m <= 12 /\ 1 <= d <= _days_in_month y m /\
  1 + 400 * ((n - 1) / _DI400Y) <= y <= 400 + 400 * ((n - 1) / _DI400Y).
Proof.
  pose proof (Z.mod_pos_bound (n - 1) _DI400Y ltac:(unfold _DI400Y; lia)) as Hr.
  pose proof (ord_check_ok _ Hr) as Hc.
  assert (Hn : n = (n - 1) / _DI400Y * _DI400Y + (n - 1) mod _DI400Y + 1)
    by (pose proof (Z.div_mod (n - 1) _DI400Y ltac:(unfold _DI400Y; lia)); lia).
  set (q := (n - 1) / _DI400Y) in *. set (r := (n - 1) mod _DI400Y) in *.
  clearbody q r. pose proof (ord2ymd_shift q r Hr) as Hs. rewrite <- Hn in Hs. rewrite Hs.
  unfold ord_check in Hc. destruct (_ord2ymd _) as [[y m] d].
  repeat (apply andb_prop in Hc as [Hc ?]). rewrite Z.eqb_eq in Hc.
  rewrite ymd2ord_shift, days_in_month_shift.
  apply Z.leb_le in H, H0, H1, H2, H3, H4. lia.
Qed.

Lemma civil_of_seconds_spec (t : Z) :
  seconds_of_civil (civil_of_seconds t) = t /\ valid_datetime (civil_of_seconds t).
Proof.
  unfold civil_of_seconds, seconds_of_civil, valid_datetime.
  pose proof (ord2ymd_spec (t / 86400 + EPOCH_ORDINAL)) as H.
  destruct (_ord2ymd _) as [[y m] d]; simpl. unfold EPOCH_ORDINAL in *.
  destruct H as (Ho & Hm & Hd & _). rewrite Ho.
  repeat split; try lia; Z.div_mod_to_equations; lia.
Qed.

Lemma datetime_eqb_spec (a b : datetime) : datetime_eqb a b = true <-> a = b.
Proof.
  destruct a, b; unfold datetime_eqb; simpl.
  rewrite !andb_true_iff, !Z.eqb_eq. split.
  - intros (((((-> & ->) & ->) & ->) & ->) & ->). reflexivity.
  - intros H; injection H; intros; subst; tauto.
Qed.

Lemma fromtimestamp_inj (a b : Z) : fromtimestamp a = fromtimestamp b -> a = b.
Proof.
  intros Heq. pose proof (proj1 (civil_of_seconds_spec (a + GMT_INT * 3600))).
  pose proof (proj1 (civil_of_seconds_spec (b + GMT_INT * 3600))).
  unfold fromtimestamp in Heq. rewrite Heq in *. lia.
Qed.

(** Two datetimes built by [fromtimestamp] are equal exactly when the
    timestamps are. *)
Lemma fromtimestamp_eqb (a b : Z) :
  datetime_eqb (fromtimestamp a) (fromtimestamp b) = (a =? b).
Proof.
  destruct (Z.eqb_spec a b) as [->|Hne].
  - apply datetime_eqb_spec. reflexivity.
  - apply Bool.not_true_iff_false. rewrite datetime_eqb_spec.
    intros Heq. exact (Hne (fromtimestamp_inj a b Heq)).
Qed.

(** The timestamps whose date in UTC+3 is in years 1 to 9600: the
    ordinals of the first 24 400-year cycles. *)
Definition printable_ts (ts : Z) : Prop :=
  -62135596800 <= ts + GMT_INT * 3600 < 240811142400.

Lemma fromtimestamp_year (ts : Z) :
  printable_ts ts -> 1 <= year (fromtimestamp ts) <= 9600.
Proof.
  unfold printable_ts, fromtimestamp, civil_of_seconds. intros Ht.
  pose proof (ord2ymd_spec ((ts + GMT_INT * 3600) / 86400 + EPOCH_ORDINAL)) as H.
  destruct (_ord2ymd _) as [[y m] d]. cbn [year]. destruct H as (_ & _ & _ & Hy).
  unfold EPOCH_ORDINAL, _DI400Y, GMT_INT in *. Z.div_mod_to_equations. lia.
Qed.

(** ** [strftime] is injective on four-digit years *)

Lemma days_in_month_le_31 (y m : Z) : 1 <= m <= 12 -> _days_in_month y m <= 31.
Proof.
  intros Hm. unfold _days_in_month. destruct (_ && _); [lia|].
  assert (H : forall_from (fun m => _DAYS_IN_MONTH m <=? 31) 1 12 = true)
    by (vm_compute; reflexivity).
  apply Z.leb_le, (forall_from_spec _ _ _ H m). simpl; lia.
Qed.



Lemma length_append (s t : string) :
  String.length (s ++ t) = (String.length s + String.length t)%nat.
Proof. induction s as [|a s IH]; simpl; [reflexivity | now rewrite IH]. Qed.

(** Equal strings whose prefixes have the same length split alike. *)
Lemma append_inj (s1 s2 t1 t2 : string) :
  String.length s1 = String.length s2 -> (s1 ++ t1 = s2 ++ t2)%string -> s1 = s2 /\ t1 = t2.
Proof.
  revert s2; induction s1 as [|a s1 IH]; intros [|b s2] Hl H; try discriminate; [easy|].
  injection Hl as Hl. injection H as -> H. destruct (IH s2 Hl H) as [-> ->]. easy.
Qed.

Lemma length_zpad (w : nat) (n : Z) : String.length (zpad w n) = w.
Proof.
  revert n; induction w as [|w IH]; intros n; [reflexivity|].
  simpl zpad. rewrite length_append, IH. simpl. lia.
Qed.

Lemma digit_inj (a b : Z) : 0 <= a <= 9 -> 0 <= b <= 9 -> digit a = digit b -> a = b.
Proof.
  intros Ha Hb H. apply (f_equal nat_of_ascii) in H. unfold digit in H.
  rewrite !nat_ascii_embedding in H by lia. lia.
Qed.

(** [zpad w] prints the last [w] decimal digits, and only them. *)
Lemma zpad_inj (w : nat) (a b : Z) :
  zpad w a = zpad w b -> a mod 10 ^ Z.of_nat w = b mod 10 ^ Z.of_nat w.
Proof.
  revert a b; induction w as [|w IH]; intros a b H; [now rewrite !Z.mod_1_r|].
  simpl zpad in H. apply append_inj in H as [H1 H2]; [|now rewrite !length_zpad].
  injection H2 as H2.
  pose proof (Z.mod_pos_bound a 10 ltac:(lia)). pose proof (Z.mod_pos_bound b 10 ltac:(lia)).
  apply digit_inj in H2; [|lia ..].
  apply IH in H1. rewrite Nat2Z.inj_succ, Z.pow_succ_r, !Z.rem_mul_r by lia.
  congruence.
Qed.

(** The value of a field printed on [w] digits that fit. *)
Lemma zpad_field (w : nat) (a b : Z) :
  0 <= a < 10 ^ Z.of_nat w -> 0 <= b < 10 ^ Z.of_nat w -> zpad w a = zpad w b -> a = b.
Proof. intros Ha Hb H. apply zpad_inj in H. now rewrite !Z.mod_small in H. Qed.

Lemma strftime_inj (a b : datetime) :
  valid_datetime a -> valid_datetime b -> 0 <= year a < 10000 -> 0 <= year b < 10000 ->
  strftime a = strftime b -> a = b.
Proof.
  intros Va Vb Ya Yb H. pose proof (days_in_month_le_31 (year a) (month a) (proj1 Va)).
  pose proof (days_in_month_le_31 (year b) (month b) (proj1 Vb)).
  destruct a as [y1 mo1 d1 h1 mi1 s1], b as [y2 mo2 d2 h2 mi2 s2];
    unfold valid_datetime, strftime in *; cbn [year month day hour minute second] in *.
  repeat match goal with
  | H : (_ ++ _)%string = (_ ++ _)%string |- _ =>
      apply append_inj in H as [? H]; [|now rewrite ?length_zpad]
  end.
  repeat match goal with
  | H : zpad _ _ = zpad _ _ |- _ => apply zpad_field in H; [|simpl; lia ..]
  end.
  congruence.
Qed.

Lemma length_strftime (dt : datetime) : String.length (strftime dt) = 19%nat.
Proof. unfold strftime. now rewrite !length_append, !length_zpad. Qed.

(** The [start] strings of two printable timestamps are equal only when
    the timestamps are. *)
Lemma start_string_inj (a b : Z) :
  printable_ts a -> printable_ts b -> start_string a = start_string b -> a = b.
Proof.
  intros Ha Hb H. apply append_inj in H as [H _]; [|now rewrite !length_strftime].
  apply fromtimestamp_year in Ha, Hb. apply fromtimestamp_inj.
  apply strftime_inj; try apply civil_of_seconds_spec; auto; lia.
Qed.

End Clock.
