(* ===== verification/Loop.v ===== *)
(** * Loop: the hourly loop of the script on the rows HA returns

    Lines 157-210 of src/virtualBattery_to_ha.py: the three output lists
    start empty; for every pair of [zip(injectionDataList,
    consumptionDataList)] the loop reads the two [start_ts], converts
    them with [fromtimestamp] (Clock), stops the script when they differ
    (line 167-169), reads the two [sum] fields, runs the body of
    [Battery.hour] and appends one record to each output list.  A row
    that lacks a field, or has a field that is not a number, raises the
    Python exception of [Json].

    [process] refines [Battery.run]: on rows that decode it returns the
    snapshots of [Battery.run] as records; on the first row that does
    not, it stops.  The properties of the records the script sends
    (alignment, signs, monotonicity, distinct dates) follow from it. *)

From S2P Require Import Prelude Json Clock Battery.
From Stdlib Require Import String.
Import ListNotations.
Open Scope Z_scope.
Local Open Scope vb_scope.

Module Loop.
Import Json.

(** An output record: [{"start": ..., "state": ...}] or
    [{"start": ..., "sum": ...}]. *)
Record stat := mkStat { start : string; key : string; value : Z }.

(** The loop variables and the three output lists (lines 158-160). *)
Record LoopState := mkLoopState {
  battery : Battery.BatteryState;
  statsBatteryStockList : list stat;
  statsBatteryOutList : list stat;
  statsEnedisOutList : list stat
}.

(** Why the loop stops the script: [exit(1)] on line 169, or an
    uncaught Python exception. *)
Inductive LoopError :=
| DatesDoNotMatch
| LoopException (e : py_error).

Definition lift {A} (r : result A py_error) : result A LoopError :=
  match r with
  | Ok a => Ok a
  | Err e => Err (LoopException e)
  end.

(** Lines 164-210: one iteration on an injection row and a consumption
    row. *)
Definition iteration (ls : LoopState) (injectionData consumptionData : json)
  : result LoopState LoopError :=
  injectionTs <- lift (number_at injectionData "start_ts") ;;
  let injectionDate := Clock.fromtimestamp injectionTs in
  consumptionTs <- lift (number_at consumptionData "start_ts") ;;
  let consumptionDate := Clock.fromtimestamp consumptionTs in
  if negb (Clock.datetime_eqb injectionDate consumptionDate) then Err DatesDoNotMatch
  else
    injectionSum <- lift (number_at injectionData "sum") ;;
    consumptionSum <- lift (number_at consumptionData "sum") ;;
    let s := Battery.hour (battery ls) injectionSum consumptionSum in
    let start := (Clock.strftime injectionDate ++ Clock.GMT)%string in
    Ok {| battery := s;
          statsBatteryStockList :=
            statsBatteryStockList ls ++ [mkStat start "state" (Battery.previousBatteryStock s)];
          statsBatteryOutList :=
            statsBatteryOutList ls ++ [mkStat start "sum" (Battery.previousBatteryOut s)];
          statsEnedisOutList :=
            statsEnedisOutList ls ++ [mkStat start "sum" (Battery.previousEnedisOut s)] |}.

(** Line 163: the [for] loop over the pairs. *)
Fixpoint loop (ls : LoopState) (pairs : list (json * json)) : result LoopState LoopError :=
  match pairs with
  | [] => Ok ls
  | (injectionData, consumptionData) :: rest =>
      ls' <- iteration ls injectionData consumptionData ;; loop ls' rest
  end.

(** Lines 158-210: the loop from the seeds, over [zip] of the two
    curves ([combine] stops at the shorter list, as [zip] does). *)
Definition process (s : Battery.BatteryState) (injectionDataList consumptionDataList : list json)
  : result LoopState LoopError :=
  loop (mkLoopState s [] [] []) (combine injectionDataList consumptionDataList).

(** ** The rows as numbers *)

(** A pair of rows the loop accepts: both timestamps and sums readable
    and the timestamps equal; gives (timestamp, injection sum,
    consumption sum). *)
Definition decode_pair (injectionData consumptionData : json) : option (Z * (Z * Z)) :=
  match number_at injectionData "start_ts", number_at consumptionData "start_ts",
        number_at injectionData "sum", number_at consumptionData "sum" with
  | Ok a, Ok b, Ok x, Ok y => if a =? b then Some (a, (x, y)) else None
  | _, _, _, _ => None
  end.

Fixpoint decode (pairs : list (json * json)) : option (list (Z * (Z * Z))) :=
  match pairs with
  | [] => Some []
  | (i, c) :: rest =>
      match decode_pair i c, decode rest with
      | Some h, Some hs => Some (h :: hs)
      | _, _ => None
      end
  end.

(** The records of one output series for the hours [hs] run from [s]. *)
Definition records (k : string) (f : Battery.BatteryState -> Z)
  (s : Battery.BatteryState) (hs : list (Z * (Z * Z))) : list stat :=
  map (fun '(ts, t) => mkStat (Clock.start_string ts) k (f t))
    (combine (map fst hs) (Battery.run s (map snd hs))).

(** What the loop computes from [s] on decoded hours. *)
Definition expected (s : Battery.BatteryState) (hs : list (Z * (Z * Z))) : LoopState :=
  {| battery := Battery.final s (map snd hs);
     statsBatteryStockList := records "state" Battery.previousBatteryStock s hs;
     statsBatteryOutList := records "sum" Battery.previousBatteryOut s hs;
     statsEnedisOutList := records "sum" Battery.previousEnedisOut s hs |}.

(** The loop state after the decoded hours [hs], from [ls]. *)
Definition extend (ls : LoopState) (hs : list (Z * (Z * Z))) : LoopState :=
  let s := battery ls in
  {| battery := Battery.final s (map snd hs);
     statsBatteryStockList :=
       statsBatteryStockList ls ++ records "state" Battery.previousBatteryStock s hs;
     statsBatteryOutList := statsBatteryOutList ls ++ records "sum" Battery.previousBatteryOut s hs;
     statsEnedisOutList := statsEnedisOutList ls ++ records "sum" Battery.previousEnedisOut s hs |}.

(** ** Lemmas *)

Lemma records_cons (k : string) (f : Battery.BatteryState -> Z) (s : Battery.BatteryState)
  (ts x y : Z) (hs : list (Z * (Z * Z))) :
  records k f s ((ts, (x, y)) :: hs) =
  mkStat (Clock.start_string ts) k (f (Battery.hour s x y)) :: records k f (Battery.hour s x y) hs.
Proof. reflexivity. Qed.

(** The record of the last hour of a range. *)
Lemma records_snoc (k : string) (f : Battery.BatteryState -> Z) (s : Battery.BatteryState)
  (hs : list (Z * (Z * Z))) (ts x y : Z) :
  records k f s (hs ++ [(ts, (x, y))]) =
  records k f s hs ++
    [mkStat (Clock.start_string ts) k (f (Battery.final s (map snd (hs ++ [(ts, (x, y))]))))].
Proof.
  revert s; induction hs as [|[ts' [x' y']] hs IH]; intros s; [reflexivity|].
  cbn [app]. rewrite !records_cons, IH. cbn [map snd]. now rewrite Battery.final_cons.
Qed.

Lemma length_records (k : string) (f : Battery.BatteryState -> Z) (s : Battery.BatteryState)
  (hs : list (Z * (Z * Z))) : List.length (records k f s hs) = List.length hs.
Proof.
  unfold records. rewrite length_map, length_combine, Battery.length_run, !length_map. lia.
Qed.

Lemma records_key (k : string) (f : Battery.BatteryState -> Z) (s : Battery.BatteryState)
  (hs : list (Z * (Z * Z))) : Forall (fun r => key r = k) (records k f s hs).
Proof.
  unfold records. apply Forall_forall. intros r Hr.
  apply in_map_iff in Hr as ([ts t] & <- & _). reflexivity.
Qed.

Lemma map_start_records (k : string) (f : Battery.BatteryState -> Z) (s : Battery.BatteryState)
  (hs : list (Z * (Z * Z))) :
  map start (records k f s hs) = map (fun h => Clock.start_string (fst h)) hs.
Proof.
  revert s; induction hs as [|[ts [x y]] hs IH]; intros s; [reflexivity|].
  rewrite records_cons. simpl. now rewrite IH.
Qed.

Lemma map_value_records (k : string) (f : Battery.BatteryState -> Z) (s : Battery.BatteryState)
  (hs : list (Z * (Z * Z))) :
  map value (records k f s hs) = map f (Battery.run s (map snd hs)).
Proof.
  revert s; induction hs as [|[ts [x y]] hs IH]; intros s; [reflexivity|].
  rewrite records_cons. simpl. now rewrite IH.
Qed.

Lemma length_decode (pairs : list (json * json)) (hs : list (Z * (Z * Z))) :
  decode pairs = Some hs -> List.length hs = List.length pairs.
Proof.
  revert hs; induction pairs as [|[i c] pairs IH]; intros hs H; simpl in H.
  - now injection H as <-.
  - destruct (decode_pair i c), (decode pairs) eqn:E; try discriminate.
    injection H as <-. simpl. now rewrite (IH l eq_refl).
Qed.

Lemma iteration_decoded (ls : LoopState) (i c : json) (ts x y : Z) :
  decode_pair i c = Some (ts, (x, y)) -> iteration ls i c = Ok (extend ls [(ts, (x, y))]).
Proof.
  unfold decode_pair, iteration.
  destruct (number_at i "start_ts") as [a|], (number_at c "start_ts") as [b|],
    (number_at i "sum") as [x'|], (number_at c "sum") as [y'|]; try discriminate.
  destruct (Z.eqb_spec a b) as [<-|]; [|discriminate]. intros H; injection H as <- <- <-.
  simpl. rewrite Clock.fromtimestamp_eqb, Z.eqb_refl. reflexivity.
Qed.

Lemma iteration_undecoded (ls : LoopState) (i c : json) :
  decode_pair i c = None -> is_ok (iteration ls i c) = false.
Proof.
  unfold decode_pair, iteration.
  destruct (number_at i "start_ts") as [a|], (number_at c "start_ts") as [b|],
    (number_at i "sum") as [x'|], (number_at c "sum") as [y'|]; simpl;
    rewrite ?Clock.fromtimestamp_eqb; try reflexivity;
    destruct (Z.eqb_spec a b); (reflexivity || discriminate).
Qed.

Lemma extend_cons (ls : LoopState) (ts x y : Z) (hs : list (Z * (Z * Z))) :
  extend (extend ls [(ts, (x, y))]) hs = extend ls ((ts, (x, y)) :: hs).
Proof.
  unfold extend. cbn [battery statsBatteryStockList statsBatteryOutList statsEnedisOutList map snd].
  rewrite !Battery.final_cons, !records_cons, <- !app_assoc. reflexivity.
Qed.

Lemma loop_decoded (ls : LoopState) (pairs : list (json * json)) (hs : list (Z * (Z * Z))) :
  decode pairs = Some hs -> loop ls pairs = Ok (extend ls hs).
Proof.
  revert ls hs; induction pairs as [|[i c] pairs IH]; intros ls hs H; simpl in H.
  - injection H as <-. destruct ls; unfold extend; simpl. now rewrite !app_nil_r.
  - destruct (decode_pair i c) as [[ts [x y]]|] eqn:E1, (decode pairs) eqn:E2; try discriminate.
    injection H as <-. simpl. rewrite (iteration_decoded _ _ _ _ _ _ E1). simpl.
    rewrite (IH _ l eq_refl). now rewrite extend_cons.
Qed.

Lemma loop_undecoded (ls : LoopState) (pairs : list (json * json)) :
  decode pairs = None -> is_ok (loop ls pairs) = false.
Proof.
  revert ls; induction pairs as [|[i c] pairs IH]; intros ls H; simpl in H; [discriminate|].
  simpl. destruct (decode_pair i c) as [[ts [x y]]|] eqn:E1.
  - rewrite (iteration_decoded _ _ _ _ _ _ E1). simpl. apply IH.
    destruct (decode pairs); [discriminate | reflexivity].
  - pose proof (iteration_undecoded ls _ _ E1).
    destruct (iteration ls i c); [discriminate | reflexivity].
Qed.

Lemma process_decoded (s : Battery.BatteryState) (injs conss : list json)
  (hs : list (Z * (Z * Z))) :
  decode (combine injs conss) = Some hs -> process s injs conss = Ok (expected s hs).
Proof. intros H. unfold process. now rewrite (loop_decoded _ _ _ H). Qed.

(** The process succeeds only on decoded rows. *)
Lemma process_Ok_inv (s : Battery.BatteryState) (injs conss : list json) (ls : LoopState) :
  process s injs conss = Ok ls ->
  exists hs, decode (combine injs conss) = Some hs /\ ls = expected s hs.
Proof.
  intros H. destruct (decode (combine injs conss)) as [hs|] eqn:E.
  - exists hs. split; [reflexivity|]. rewrite (process_decoded _ _ _ _ E) in H. now inv_ok.
  - pose proof (loop_undecoded (mkLoopState s [] [] []) _ E) as Hn.
    unfold process in H. rewrite H in Hn. discriminate.
Qed.

(** An hourly row of HA's statistics, as the witnesses use them. *)
Definition row (ts v : Z) : json := JObj [("start_ts"%string, JNum ts); ("sum"%string, JNum v)].

Lemma loop_app (ls : LoopState) (p q : list (json * json)) :
  loop ls (p ++ q) = (ls' <- loop ls p ;; loop ls' q).
Proof.
  revert ls; induction p as [|[i c] p IH]; intros ls; [reflexivity|].
  simpl. destruct (iteration ls i c); simpl; [apply IH | reflexivity].
Qed.

(** The timestamp string of a row, as the loop prints it. *)
Definition row_start (r : json) : string :=
  match number_at r "start_ts" with
  | Ok t => Clock.start_string t
  | Err _ => ""
  end.

(** The [start_ts] of a row, when it has one. *)
Definition row_ts (r : json) : option Z :=
  match number_at r "start_ts" with Ok t => Some t | Err _ => None end.

(** The decoded hours are dated by the [start_ts] of the first
    injection rows. *)
Lemma decode_ts (injs conss : list json) (hs : list (Z * (Z * Z))) :
  decode (combine injs conss) = Some hs ->
  map (fun h => Some (fst h)) hs = map row_ts (firstn (List.length hs) injs).
Proof.
  revert conss hs; induction injs as [|i injs IH]; intros conss hs H.
  - simpl in H. injection H as <-. reflexivity.
  - destruct conss as [|c conss]; simpl in H; [injection H as <-; reflexivity|].
    destruct (decode_pair i c) as [[ts [x y]]|] eqn:E, (decode (combine injs conss)) eqn:E2;
      try discriminate.
    injection H as <-. simpl. rewrite (IH _ _ E2). f_equal.
    unfold decode_pair, row_ts in *.
    destruct (number_at i "start_ts"), (number_at c "start_ts"), (number_at i "sum"),
      (number_at c "sum"); try discriminate.
    destruct (_ =? _); [|discriminate]. now injection E as <- <- <-.
Qed.

Lemma decode_starts (injs conss : list json) (hs : list (Z * (Z * Z))) :
  decode (combine injs conss) = Some hs ->
  map (fun h => Clock.start_string (fst h)) hs = map row_start (firstn (List.length hs) injs).
Proof.
  intros H. apply decode_ts in H. apply (f_equal (map (fun o => match o with
    | Some t => Clock.start_string t | None => ""%string end))) in H.
  rewrite !map_map in H. rewrite H. apply map_ext. intros r.
  unfold row_ts, row_start. now destruct (number_at r "start_ts").
Qed.

(** Every decoded hour is dated by some injection row. *)
Lemma decode_ts_In (injs conss : list json) (hs : list (Z * (Z * Z))) (t : Z) :
  decode (combine injs conss) = Some hs -> In t (map fst hs) ->
  exists r, In r injs /\ row_ts r = Some t.
Proof.
  intros Hd Ht. apply (in_map (@Some Z)) in Ht. rewrite map_map, (decode_ts _ _ _ Hd) in Ht.
  apply in_map_iff in Ht as (r & Hr & Hin). exists r. split; [exact (In_firstn _ _ _ Hin) | exact Hr].
Qed.
(** The stock records of decoded hours are non-negative. *)
Lemma expected_stock_nonneg (s : Battery.BatteryState) (hs : list (Z * (Z * Z))) :
  Forall (fun r => 0 <= value r) (statsBatteryStockList (expected s hs)).
Proof.
  unfold expected; simpl.
  assert (Hv : Forall (fun v => 0 <= v) (map value (records "state" Battery.previousBatteryStock s hs))).
  { rewrite map_value_records. apply Forall_map.
    apply Battery.run_Forall. intros. rewrite Battery.hour_stock. lia. }
  rewrite Forall_map in Hv. exact Hv.
Qed.

(** ** Properties of the loop *)

(** C3: The loop of the script refines the numeric run: when every
    pair of [zip] rows is readable and dated alike, it returns the final
    state of [Battery.run] on the sums and one record per hour for each
    series, dated by [start_string] and valued by the snapshots of
    [Battery.run]; otherwise it stops the script. *)
Theorem process_refines_run (s : Battery.BatteryState) (injs conss : list json) :
  match decode (combine injs conss) with
  | Some hs => process s injs conss = Ok (expected s hs)
  | None => is_ok (process s injs conss) = false
  end.
Proof.
  destruct (decode _) eqn:E; [now apply process_decoded | now apply loop_undecoded].
Qed.

(** C6: The date check stops the script (line 169): after any prefix
    of hours that went through, a pair whose two [start_ts] differ ends
    the loop with [DatesDoNotMatch], whatever follows it. *)
Theorem loop_stops_at_date_mismatch (ls ls' : LoopState) (pre post : list (json * json))
  (i c : json) (a b : Z) :
  loop ls pre = Ok ls' ->
  number_at i "start_ts" = Ok a -> number_at c "start_ts" = Ok b -> a <> b ->
  loop ls (pre ++ (i, c) :: post) = Err DatesDoNotMatch.
Proof.
  intros Hpre Ha Hb Hne. rewrite loop_app, Hpre. simpl.
  unfold iteration. rewrite Ha, Hb. simpl. rewrite Clock.fromtimestamp_eqb.
  destruct (Z.eqb_spec a b); [contradiction | reflexivity].
Qed.

(** C11: Alignment: on success the three output series have one record
    per pair of [zip], that is [min] of the two curves' lengths, all
    three carry the same [start] strings, and these are the dates of the
    injection rows in order. *)
Theorem process_alignment (s : Battery.BatteryState) (injs conss : list json) (ls : LoopState) :
  process s injs conss = Ok ls ->
  List.length (statsBatteryStockList ls) = Nat.min (List.length injs) (List.length conss) /\
  map start (statsBatteryOutList ls) = map start (statsBatteryStockList ls) /\
  map start (statsEnedisOutList ls) = map start (statsBatteryStockList ls) /\
  map start (statsBatteryStockList ls) =
    map row_start (firstn (List.length (statsBatteryStockList ls)) injs).
Proof.
  intros H. apply process_Ok_inv in H as (hs & Hd & ->). unfold expected; simpl.
  rewrite !map_start_records, length_records, (length_decode _ _ Hd), length_combine.
  repeat split. rewrite <- length_combine, <- (length_decode _ _ Hd).
  exact (decode_starts _ _ _ Hd).
Qed.

(** C12: Every battery-stock record the script sends to HA is
    non-negative, for any rows HA returns and any seed. *)
Theorem process_stock_records_nonneg (s : Battery.BatteryState) (injs conss : list json)
  (ls : LoopState) :
  process s injs conss = Ok ls -> Forall (fun r => 0 <= value r) (statsBatteryStockList ls).
Proof.
  intros H. apply process_Ok_inv in H as (hs & _ & ->). apply expected_stock_nonneg.
Qed.

(** C13: The Enedis-out sums the script sends never decrease and start
    at or above the seed. *)
Theorem process_enedis_records_sorted (s : Battery.BatteryState) (injs conss : list json)
  (ls : LoopState) :
  process s injs conss = Ok ls ->
  Sorted Z.le (Battery.previousEnedisOut s :: map value (statsEnedisOutList ls)).
Proof.
  intros H. apply process_Ok_inv in H as (hs & _ & ->). unfold expected; simpl.
  rewrite map_value_records.
  apply (Battery.run_monotone Battery.previousEnedisOut). intros. rewrite Battery.hour_enedis. lia.
Qed.

(** C9: The battery-out sums the script sends never decrease: when the
    rows decode, the seed stock is non-negative and neither meter index
    decreases (from the seeds on, over the decoded hours), the loop
    succeeds and its battery-out series is non-decreasing from the
    seed. *)
Theorem process_out_records_sorted (s : Battery.BatteryState) (injs conss : list json)
  (hs : list (Z * (Z * Z))) :
  decode (combine injs conss) = Some hs ->
  0 <= Battery.previousBatteryStock s ->
  Sorted Z.le (Battery.previousInjectionIndex s :: map (fun h => fst (snd h)) hs) ->
  Sorted Z.le (Battery.previousConsumtionIndex s :: map (fun h => snd (snd h)) hs) ->
  exists ls, process s injs conss = Ok ls /\
    Sorted Z.le (Battery.previousBatteryOut s :: map value (statsBatteryOutList ls)).
Proof.
  intros Hd Hs Hi Hc. exists (expected s hs). split; [exact (process_decoded _ _ _ _ Hd)|].
  cbn [expected statsBatteryOutList]. rewrite map_value_records.
  apply (Battery.run_out_monotone s (map snd hs) Hs); now rewrite map_map.
Qed.

(** C25: No series repeats a date: when the injection rows carry
    pairwise distinct [start_ts], each within years 1 to 9600 of UTC+3,
    the records of each of the three series a successful loop produces
    have pairwise distinct [start] strings, so HA receives at most one
    value per hour. *)
Theorem process_starts_distinct (s : Battery.BatteryState) (injs conss : list json)
  (ls : LoopState) :
  process s injs conss = Ok ls ->
  NoDup (map row_ts injs) ->
  Forall (fun r => forall t, row_ts r = Some t -> Clock.printable_ts t) injs ->
  NoDup (map start (statsBatteryStockList ls)) /\ NoDup (map start (statsBatteryOutList ls)) /\
  NoDup (map start (statsEnedisOutList ls)).
Proof.
  intros H Hd Hp. apply process_Ok_inv in H as (hs & Hdec & ->).
  cbn [expected statsBatteryStockList statsBatteryOutList statsEnedisOutList].
  rewrite !map_start_records.
  enough (Hn : NoDup (map (fun h => Clock.start_string (fst h)) hs)) by tauto.
  rewrite <- (map_map fst Clock.start_string). apply NoDup_map_NoDup_ForallPairs.
  - intros a b Ha Hb. rewrite Forall_forall in Hp.
    destruct (decode_ts_In _ _ _ a Hdec Ha) as (ra & Ra & Ta).
    destruct (decode_ts_In _ _ _ b Hdec Hb) as (rb & Rb & Tb).
    apply Clock.start_string_inj; [exact (Hp ra Ra a Ta) | exact (Hp rb Rb b Tb)].
  - apply (NoDup_map_inv (@Some Z)). rewrite map_map, (decode_ts _ _ _ Hdec), <- firstn_map.
    exact (NoDup_firstn _ _ Hd).
Qed.

(** ** Witnesses *)

(** Two hours of 2023-11-15 (UTC+3) as HA returns them, from a battery
    holding 500 Wh: the second hour drains it. *)
Definition sample_seed : Battery.BatteryState := Battery.mkBatteryState 500 0 0 1000 2000.
Definition sample_injections : list json := [row 1699999200 1100; row 1700002800 1100].
Definition sample_consumptions : list json := [row 1699999200 2300; row 1700002800 2900].
Definition sample_hours : list (Z * (Z * Z)) :=
  [(1699999200, (1100, 2300)); (1700002800, (1100, 2900))].

Lemma process_alignment_witness :
  process sample_seed sample_injections sample_consumptions = Ok (expected sample_seed sample_hours) /\
  List.length (statsBatteryStockList (expected sample_seed sample_hours)) = 2%nat.
Proof.
  split; [vm_compute; reflexivity|].
  rewrite (proj1 (process_alignment sample_seed sample_injections sample_consumptions
    (expected sample_seed sample_hours) ltac:(vm_compute; reflexivity))).
  reflexivity.
Defined.

Lemma process_stock_records_nonneg_witness :
  Forall (fun r => 0 <= value r) (statsBatteryStockList (expected sample_seed sample_hours)).
Proof.
  apply (process_stock_records_nonneg sample_seed sample_injections sample_consumptions).
  vm_compute. reflexivity.
Defined.

Lemma process_enedis_records_sorted_witness :
  Sorted Z.le (Battery.previousEnedisOut sample_seed ::
               map value (statsEnedisOutList (expected sample_seed sample_hours))).
Proof.
  apply (process_enedis_records_sorted sample_seed sample_injections sample_consumptions).
  vm_compute. reflexivity.
Defined.

Lemma process_out_records_sorted_witness :
  exists ls, process sample_seed sample_injections sample_consumptions = Ok ls /\
    Sorted Z.le (Battery.previousBatteryOut sample_seed :: map value (statsBatteryOutList ls)).
Proof.
  apply (process_out_records_sorted _ _ _ sample_hours);
    [vm_compute; reflexivity | simpl; lia | cbn; sorted_tac | cbn; sorted_tac].
Defined.

Lemma process_starts_distinct_witness :
  NoDup (map start (statsBatteryStockList (expected sample_seed sample_hours))) /\
  NoDup (map start (statsBatteryOutList (expected sample_seed sample_hours))) /\
  NoDup (map start (statsEnedisOutList (expected sample_seed sample_hours))).
Proof.
  apply (process_starts_distinct sample_seed sample_injections sample_consumptions).
  - vm_compute. reflexivity.
  - cbn. repeat constructor; cbn; intuition discriminate.
  - rewrite Forall_forall. intros r Hr t Ht. destruct Hr as [<-|[<-|[]]];
      cbn in Ht; injection Ht as <-; unfold Clock.printable_ts, Clock.GMT_INT; lia.
Defined.

Lemma loop_stops_at_date_mismatch_witness :
  loop (mkLoopState (Battery.mkBatteryState 5000 0 0 0 0) [] [] [])
    ([(row 0 100, row 0 1000)] ++ (row 3600 200, row 7200 1500) :: [])
  = Err DatesDoNotMatch.
Proof.
  apply (loop_stops_at_date_mismatch _ (extend (mkLoopState (Battery.mkBatteryState 5000 0 0 0 0) [] [] [])
    [(0, (100, 1000))]) _ _ _ _ 3600 7200); [vm_compute; reflexivity | reflexivity | reflexivity | lia].
Defined.

End Loop.
