(* ===== verification/Seeds.v ===== *)
(** * Seeds: the values the script reads before the loop

    Lines 99-155 of src/virtualBattery_to_ha.py.  Each read goes through
    [getStatistics] (modelled in [Script]), which gives the [message] of
    HA's answer or [None]; this file models what the script does with
    that value:
    - the battery stock (lines 101-105): fatal when the message or its
      [state] is falsy, else [state * 1000];
    - the battery-out, Enedis-out, injection and consumption indices
      (lines 110-151): 0 when the message or its [sum] is falsy, else
      [sum];
    - the two hourly curves (lines 138-141, 152-155): fatal when falsy,
      else iterated by [zip].
    A truthy message that is not a dict, or a dict without the key, makes
    the subscription raise. *)

From S2P Require Import Prelude Json.
From Stdlib Require Import String.
Import ListNotations.
Open Scope Z_scope.
Local Open Scope vb_scope.

Module Seeds.
Import Json.

(** Why reading the seeds stops the script. *)
Inductive SeedError :=
| BatteryStockNotFound          (** lines 102-104 *)
| InjectionDataNotFound         (** lines 139-141 *)
| ConsumptionDataNotFound       (** lines 153-155 *)
| SeedException (e : py_error). (** a subscription or an operand that raises *)

Definition liftPy {A} (r : result A py_error) : result A SeedError :=
  match r with
  | Ok a => Ok a
  | Err e => Err (SeedException e)
  end.

(** Lines 101-105.  [not previousBatteryStock or not
    previousBatteryStock["state"]] is fatal; otherwise the stock is the
    [state] times 1000 (kWh to Wh). *)
Definition readBatteryStock (previousBatteryStock : option json) : result Z SeedError :=
  match previousBatteryStock with
  | None => Err BatteryStockNotFound
  | Some m =>
      if negb (truthy m) then Err BatteryStockNotFound
      else
        state <- liftPy (getitem m "state") ;;
        if negb (truthy state) then Err BatteryStockNotFound
        else v <- liftPy (as_number state) ;; Ok (v * 1000)
  end.

(** Lines 110-116, 120-126, 130-136, 145-151: a cumulative index, 0 when
    [not x or not x["sum"]]. *)
Definition readIndex (previous : option json) : result Z SeedError :=
  match previous with
  | None => Ok 0
  | Some m =>
      if negb (truthy m) then Ok 0
      else
        sum <- liftPy (getitem m "sum") ;;
        if negb (truthy sum) then Ok 0 else liftPy (as_number sum)
  end.

(** What [for x in v] iterates over: the items of a list, the keys of a
    dict, the characters of a string; numbers and [None] are not
    iterable. *)
Definition iter_json (v : json) : result (list json) py_error :=
  match v with
  | JList l => Ok l
  | JObj fs => Ok (map (fun kv => JStr (fst kv)) fs)
  | JStr s => Ok (map (fun a => JStr (String a EmptyString)) (list_ascii_of_string s))
  | _ => Err TypeError
  end.

(** Lines 138-141 and 152-155: a curve, fatal when falsy. *)
Definition readCurve (notFound : SeedError) (dataList : option json) : result json SeedError :=
  match dataList with
  | Some v => if truthy v then Ok v else Err notFound
  | None => Err notFound
  end.

(** ** Lemmas *)

Lemma truthy_obj_nonempty (fs : list (string * json)) : fs <> [] -> truthy (JObj fs) = true.
Proof. destruct fs; [contradiction | reflexivity]. Qed.

Lemma assoc_last_nonempty (k : string) (fs : list (string * json)) (v : json) :
  assoc_last k fs = Some v -> fs <> [].
Proof. destruct fs; [discriminate | congruence]. Qed.

(** The reads that succeed with a number. *)
Lemma readIndex_num (fs : list (string * json)) (z : Z) :
  assoc_last "sum" fs = Some (JNum z) -> readIndex (Some (JObj fs)) = Ok z.
Proof.
  intros H. unfold readIndex.
  rewrite (truthy_obj_nonempty _ (assoc_last_nonempty _ _ _ H)). simpl.
  unfold getitem. rewrite H. simpl. destruct (Z.eqb_spec z 0); simpl; congruence.
Qed.

Lemma readBatteryStock_num (fs : list (string * json)) (k : Z) :
  assoc_last "state" fs = Some (JNum k) -> k <> 0 -> readBatteryStock (Some (JObj fs)) = Ok (k * 1000).
Proof.
  intros H Hk. unfold readBatteryStock.
  rewrite (truthy_obj_nonempty _ (assoc_last_nonempty _ _ _ H)). simpl.
  unfold getitem. rewrite H. simpl. destruct (Z.eqb_spec k 0); [contradiction | reflexivity].
Qed.

(** ** Properties *)

(** C14: A run only ever starts from a non-zero stock, a multiple of
    1000 Wh: when HA holds a stock [state] of 0 (the battery was empty at
    the start date) the test [not previousBatteryStock["state"]] treats
    it as missing and the script stops. *)
Theorem readBatteryStock_nonzero (previous : option json) (v : Z) :
  readBatteryStock previous = Ok v -> v <> 0 /\ v mod 1000 = 0.
Proof.
  destruct previous as [m|]; simpl; [|discriminate].
  destruct (truthy m); simpl; [|discriminate].
  destruct (getitem m "state") as [st|]; simpl; [|discriminate].
  destruct (truthy st) eqn:Ht; simpl; [|discriminate].
  destruct st as [| [|] | z | | |]; simpl; try discriminate; intros H; inv_ok.
  - split; [lia | reflexivity].
  - apply truthy_num in Ht. rewrite Z_mod_mult. split; lia.
Qed.

(** C16: A statistic that HA returns without a [sum] key is not
    defaulted to 0 as the spec says of missing indices: the subscription
    raises [KeyError] and the script stops. *)
Theorem readIndex_missing_sum_raises (fs : list (string * json)) :
  fs <> [] -> assoc_last "sum" fs = None ->
  readIndex (Some (JObj fs)) = Err (SeedException (KeyError "sum")).
Proof.
  intros Hne H. unfold readIndex. rewrite (truthy_obj_nonempty _ Hne). simpl.
  unfold getitem. now rewrite H.
Qed.

(** ** Witnesses *)

Lemma readBatteryStock_nonzero_witness :
  readBatteryStock (Some (JObj [("state"%string, JNum 4)])) = Ok 4000 /\ 4000 <> 0 /\ 4000 mod 1000 = 0.
Proof.
  split; [reflexivity|]. apply (readBatteryStock_nonzero (Some (JObj [("state"%string, JNum 4)]))).
  reflexivity.
Defined.

Lemma readIndex_missing_sum_raises_witness :
  readIndex (Some (JObj [("state"%string, JNum 12)])) = Err (SeedException (KeyError "sum")).
Proof. apply readIndex_missing_sum_raises; [discriminate | reflexivity]. Defined.

End Seeds.
