(* ===== verification/Args.v ===== *)
(** * Args: the date range of a run

    Lines 68-97 of src/virtualBattery_to_ha.py.  With both [--startDate]
    and [--endDate] given (and non-empty) the script parses them with
    [datetime.strptime(_, "%Y-%m-%d")] and stops on a [ValueError];
    otherwise it processes yesterday, from 00:00 to the next 00:00.

    A naive datetime is the number of seconds since 1970-01-01 00:00:00
    of the same wall clock ([Clock.civil_of_seconds] prints it).
    [strptime] follows CPython's [_strptime]: the format compiles to the
    regular expression
    [(\d\d\d\d)-(1[0-2]|0[1-9]|[1-9])-(3[01]|[12]\d|0[1-9]|[1-9]| [1-9])],
    matched at the start of the string, with alternatives tried in order;
    text left after the match, or a date that does not exist, is a
    [ValueError].  Only ASCII digits are modelled. *)

From S2P Require Import Prelude Clock.
From Stdlib Require Import String Ascii Bool.
Import ListNotations.
Open Scope Z_scope.
Local Open Scope vb_scope.
Local Open Scope bool_scope.

Module Args.

(** ** [strptime(_, "%Y-%m-%d")] *)

Definition digit_value (a : ascii) : Z := Z.of_nat (nat_of_ascii a) - 48.

(** [a] is an ASCII digit between [lo] and [hi]. *)
Definition digit_in (lo hi : Z) (a : ascii) : bool :=
  (lo <=? digit_value a) && (digit_value a <=? hi).

Definition is_dash (a : ascii) : bool := Ascii.eqb a "-"%char.

(** The alternatives of the month group [1[0-2]|0[1-9]|[1-9]], in the
    order the regular expression tries them: each is a value and the
    text after it. *)
Definition month_alternatives (s : list ascii) : list (Z * list ascii) :=
  match s with
  | a :: r =>
      (match r with
       | b :: r' =>
           (if Ascii.eqb a "1"%char && digit_in 0 2 b then [(10 + digit_value b, r')] else []) ++
           (if Ascii.eqb a "0"%char && digit_in 1 9 b then [(digit_value b, r')] else [])
       | [] => []
       end) ++
      (if digit_in 1 9 a then [(digit_value a, r)] else [])
  | [] => []
  end.

(** The day group [3[01]|[12]\d|0[1-9]|[1-9]| [1-9]]: the first
    alternative that matches, in the regex's order, and the text after
    it. *)
Definition day_first (s : list ascii) : option (Z * list ascii) :=
  match s with
  | a :: b :: r' =>
      if Ascii.eqb a "3"%char && digit_in 0 1 b then Some (30 + digit_value b, r')
      else if digit_in 1 2 a && digit_in 0 9 b then Some (10 * digit_value a + digit_value b, r')
      else if Ascii.eqb a "0"%char && digit_in 1 9 b then Some (digit_value b, r')
      else if digit_in 1 9 a then Some (digit_value a, b :: r')
      else if Ascii.eqb a " "%char && digit_in 1 9 b then Some (digit_value b, r')
      else None
  | [a] => if digit_in 1 9 a then Some (digit_value a, []) else None
  | [] => None
  end.

(** The first month alternative after which ["-"] and a day match. *)
Fixpoint first_month_day (alts : list (Z * list ascii)) : option (Z * Z * list ascii) :=
  match alts with
  | [] => None
  | (m, r) :: alts' =>
      match r with
      | dash :: r' =>
          if is_dash dash then
            match day_first r' with
            | Some (d, rest) => Some (m, d, rest)
            | None => first_month_day alts'
            end
          else first_month_day alts'
      | [] => first_month_day alts'
      end
  end.

(** [format_regex.match(data_string)]: year, month, day and the text
    the match leaves. *)
Definition regex_match (s : list ascii) : option (Z * Z * Z * list ascii) :=
  match s with
  | y1 :: y2 :: y3 :: y4 :: dash :: r =>
      if digit_in 0 9 y1 && digit_in 0 9 y2 && digit_in 0 9 y3 && digit_in 0 9 y4 && is_dash dash
      then
        match first_month_day (month_alternatives r) with
        | Some (m, d, rest) =>
            Some (1000 * digit_value y1 + 100 * digit_value y2 + 10 * digit_value y3
                  + digit_value y4, m, d, rest)
        | None => None
        end
      else None
  | _ => None
  end.

Inductive ArgError := ValueError.

(** The naive datetime at midnight of a date. *)
Definition midnight (y m d : Z) : Z := (Clock._ymd2ord y m d - Clock.EPOCH_ORDINAL) * 86400.

(** [datetime.strptime(s, "%Y-%m-%d")]. *)
Definition strptime (s : string) : result Z ArgError :=
  match regex_match (list_ascii_of_string s) with
  | None => Err ValueError
  | Some (y, m, d, rest) =>
      match rest with
      | _ :: _ => Err ValueError
      | [] =>
          if (1 <=? y) && (1 <=? d) && (d <=? Clock._days_in_month y m)
          then Ok (midnight y m d) else Err ValueError
      end
  end.

(** ** The range *)

(** [args.x] is truthy: given and not empty. *)
Definition given (arg : option string) : bool :=
  match arg with
  | Some s => negb (String.eqb s "")
  | None => false
  end.

(** [dt.replace(hour=0, minute=0, second=0, microsecond=0)]. *)
Definition replace_midnight (dt : Clock.datetime) : Clock.datetime :=
  Clock.mkDatetime (Clock.year dt) (Clock.month dt) (Clock.day dt) 0 0 0.

(** Lines 94-96: yesterday at 00:00 and the next midnight, from the
    naive [datetime.now()]; [timedelta] arithmetic is on seconds, and
    [replace] works on the fields of the wall clock. *)
Definition yesterday_range (now : Z) : Z * Z :=
  let yesterday := now - 86400 in
  let startDate := Clock.seconds_of_civil (replace_midnight (Clock.civil_of_seconds yesterday)) in
  (startDate, startDate + 86400).

(** Lines 83-96. *)
Definition dateRange (startArg endArg : option string) (now : Z) : result (Z * Z) ArgError :=
  match startArg, endArg with
  | Some s, Some e =>
      if given startArg && given endArg then
        startDate <- strptime s ;;
        endDate <- strptime e ;;
        Ok (startDate, endDate)
      else Ok (yesterday_range now)
  | _, _ => Ok (yesterday_range now)
  end.

(** Replacing the time of day by 00:00 truncates to the day. *)
Lemma replace_midnight_seconds (t : Z) :
  Clock.seconds_of_civil (replace_midnight (Clock.civil_of_seconds t)) = t - t mod 86400.
Proof.
  pose proof (proj1 (Clock.civil_of_seconds_spec t)) as H. revert H.
  unfold Clock.seconds_of_civil, replace_midnight, Clock.civil_of_seconds.
  destruct (Clock._ord2ymd _) as [[y m] d]. cbn [Clock.year Clock.month Clock.day
    Clock.hour Clock.minute Clock.second]. intros H.
  Z.div_mod_to_equations. lia.
Qed.

(** ** What the script prints of a date, parsed back *)

(** The date part of [isoformat] / [strftime('%Y-%m-%d')]. *)
Definition date_string (y m d : Z) : string :=
  (Clock.zpad 4 y ++ "-" ++ Clock.zpad 2 m ++ "-" ++ Clock.zpad 2 d)%string.

Lemma list_ascii_of_string_app (s1 s2 : string) :
  list_ascii_of_string (s1 ++ s2) = list_ascii_of_string s1 ++ list_ascii_of_string s2.
Proof. induction s1 as [|a s1 IH]; simpl; [reflexivity | now rewrite IH]. Qed.

Lemma digit_value_digit (k : Z) : 0 <= k <= 9 -> digit_value (Clock.digit k) = k.
Proof.
  intros Hk. unfold digit_value, Clock.digit.
  rewrite nat_ascii_embedding by lia. lia.
Qed.

Lemma digit_in_digit (lo hi k : Z) :
  0 <= k <= 9 -> digit_in lo hi (Clock.digit k) = (lo <=? k) && (k <=? hi).
Proof. intros Hk. unfold digit_in. now rewrite digit_value_digit. Qed.

(** The four characters of a year. *)
Lemma year_chars (y : Z) :
  list_ascii_of_string (Clock.zpad 4 y) =
  [Clock.digit (y / 10 / 10 / 10 mod 10); Clock.digit (y / 10 / 10 mod 10);
   Clock.digit (y / 10 mod 10); Clock.digit (y mod 10)].
Proof. reflexivity. Qed.

Lemma mod10_digit (k : Z) : 0 <= k mod 10 <= 9.
Proof. pose proof (Z.mod_pos_bound k 10 ltac:(lia)). lia. Qed.

Lemma digit_check (k : Z) : (0 <=? k mod 10) && (k mod 10 <=? 9) = true.
Proof.
  pose proof (Z.mod_pos_bound k 10 ltac:(lia)).
  apply andb_true_iff; split; apply Z.leb_le; lia.
Qed.

Lemma year_digits (y : Z) : 0 <= y < 10000 ->
  1000 * (y / 10 / 10 / 10 mod 10) + 100 * (y / 10 / 10 mod 10) + 10 * (y / 10 mod 10)
  + y mod 10 = y.
Proof. intros H. rewrite !Z.div_div by lia. Z.div_mod_to_equations. lia. Qed.

(** Month and day, checked for the 12 x 31 pairs. *)
Definition md_ok (m d : Z) : bool :=
  match first_month_day (month_alternatives
          (list_ascii_of_string (Clock.zpad 2 m ++ "-" ++ Clock.zpad 2 d)%string)) with
  | Some (m', d', []) => (m' =? m) && (d' =? d)
  | _ => false
  end.

Lemma md_ok_all : forall_from (fun m => forall_from (md_ok m) 1 31) 1 12 = true.
Proof. vm_compute. reflexivity. Qed.

Lemma md_ok_spec (m d : Z) : 1 <= m <= 12 -> 1 <= d <= 31 ->
  first_month_day (month_alternatives
    (list_ascii_of_string (Clock.zpad 2 m ++ "-" ++ Clock.zpad 2 d)%string)) = Some (m, d, []).
Proof.
  intros Hm Hd.
  pose proof (forall_from_spec _ _ _ md_ok_all m ltac:(simpl; lia)) as H1.
  pose proof (forall_from_spec _ _ _ H1 d ltac:(simpl; lia)) as H2.
  unfold md_ok in H2. destruct (first_month_day _) as [[[m' d'] [|]]|]; try discriminate.
  apply andb_prop in H2 as [H2 H3]. apply Z.eqb_eq in H2, H3. now subst.
Qed.

Lemma digit_in_range (lo hi : Z) (a : ascii) :
  digit_in lo hi a = true -> lo <= digit_value a <= hi.
Proof. unfold digit_in. rewrite andb_true_iff, !Z.leb_le. tauto. Qed.

(** Every month alternative is a month. *)
Lemma month_alternatives_range (s : list ascii) (m : Z) (r : list ascii) :
  In (m, r) (month_alternatives s) -> 1 <= m <= 12.
Proof.
  destruct s as [|a r0]; cbn [month_alternatives]; [simpl; tauto|]. intros H.
  apply in_app_or in H as [H|H].
  - destruct r0 as [|b r']; [contradiction|]. cbn [app] in H. apply in_app_or in H as [H|H].
    + destruct (Ascii.eqb a "1"%char && digit_in 0 2 b) eqn:E; [|contradiction].
      destruct H as [H|[]]; apply (f_equal fst) in H; cbn [fst] in H; subst m.
      apply andb_prop in E as [_ E]. apply digit_in_range in E. lia.
    + destruct (Ascii.eqb a "0"%char && digit_in 1 9 b) eqn:E; [|contradiction].
      destruct H as [H|[]]; apply (f_equal fst) in H; cbn [fst] in H; subst m.
      apply andb_prop in E as [_ E]. apply digit_in_range in E. lia.
  - destruct (digit_in 1 9 a) eqn:E; [|contradiction].
    destruct H as [H|[]]; apply (f_equal fst) in H; cbn [fst] in H; subst m. apply digit_in_range in E. lia.
Qed.

Lemma first_month_day_In (alts : list (Z * list ascii)) (m d : Z) (rest : list ascii) :
  first_month_day alts = Some (m, d, rest) -> exists r, In (m, r) alts.
Proof.
  induction alts as [|[m' r] alts IH]; simpl; [discriminate|].
  destruct r as [|dash r']; [intros H; destruct (IH H); eauto|].
  destruct (is_dash dash); [|intros H; destruct (IH H); eauto].
  destruct (day_first r') as [[d' rest']|]; [|intros H; destruct (IH H); eauto].
  intros H; injection H as <- <- <-; eauto.
Qed.

(** ** Properties *)

(** C22: Without both dates the run covers the day before [now]: it
    starts at a midnight, lasts 24 hours, and ends at the midnight that
    starts the day of [now]. *)
Theorem yesterday_range_bounds (now : Z) :
  let '(startDate, endDate) := yesterday_range now in
  startDate mod 86400 = 0 /\ endDate = startDate + 86400 /\ endDate <= now < endDate + 86400.
Proof.
  unfold yesterday_range. rewrite replace_midnight_seconds.
  pose proof (Z.mod_pos_bound (now - 86400) 86400 ltac:(lia)).
  repeat split; try lia.
  - rewrite Zminus_mod, Z.mod_mod, Z.sub_diag by lia. reflexivity.
Qed.


(** C17: A single date argument (or an empty one) is silently ignored:
    unless both [--startDate] and [--endDate] are given and non-empty,
    the run processes yesterday. *)
Theorem dateRange_needs_both (startArg endArg : option string) (now : Z) :
  given startArg && given endArg = false ->
  dateRange startArg endArg now = Ok (yesterday_range now).
Proof.
  intros H. unfold dateRange. destruct startArg, endArg; try reflexivity. now rewrite H.
Qed.

(** C23: [strptime(_, "%Y-%m-%d")] reads back the date part of the
    datetimes the script prints (the first ten characters of
    [strftime('%Y-%m-%d %H:%M:%S')], for a four-digit year): the string
    [date_string y m d] of year [y], month [m] and valid day [d] parses
    to midnight of that date. *)
Theorem strptime_date_string (y m d : Z) :
  1000 <= y <= 9999 -> 1 <= m <= 12 -> 1 <= d <= Clock._days_in_month y m ->
  strptime (date_string y m d) = Ok (midnight y m d).
Proof.
  intros Hy Hm Hd. pose proof (Clock.days_in_month_le_31 y m Hm).
  unfold strptime, date_string. rewrite list_ascii_of_string_app, year_chars.
  change (list_ascii_of_string ("-" ++ ?X)%string) with ("-"%char :: list_ascii_of_string X).
  cbn [app]. unfold regex_match.
  rewrite !digit_in_digit by apply mod10_digit.
  rewrite !digit_check. replace (is_dash "-"%char) with true by reflexivity. cbn [andb].
  rewrite md_ok_spec by lia. cbv iota beta.
  rewrite !digit_value_digit by apply mod10_digit.
  rewrite year_digits by lia.
  destruct (Z.leb_spec 1 y), (Z.leb_spec 1 d), (Z.leb_spec d (Clock._days_in_month y m));
    try lia. reflexivity.
Qed.

(** C24: [strptime] only accepts existing dates: whatever the string,
    a successful parse is midnight of a date with year at least 1, month
    1 to 12 and a day within the month. *)
Theorem strptime_sound (s : string) (t : Z) :
  strptime s = Ok t ->
  exists y m d, 1 <= y /\ 1 <= m <= 12 /\ 1 <= d <= Clock._days_in_month y m /\
                t = midnight y m d.
Proof.
  unfold strptime, regex_match.
  destruct (list_ascii_of_string s) as [|y1 [|y2 [|y3 [|y4 [|dash r]]]]]; try discriminate.
  destruct (_ && _); [|discriminate].
  destruct (first_month_day (month_alternatives r)) as [[[m d] rest]|] eqn:E; [|discriminate].
  destruct rest; [|discriminate].
  set (yv := 1000 * digit_value y1 + 100 * digit_value y2 + 10 * digit_value y3 + digit_value y4).
  destruct (Z.leb_spec 1 yv), (Z.leb_spec 1 d), (Z.leb_spec d (Clock._days_in_month yv m));
    simpl; try discriminate.
  intros Ht; inv_ok. apply first_month_day_In in E as [r' Hin].
  apply month_alternatives_range in Hin. eauto 10.
Qed.

(** ** Witnesses *)

Lemma strptime_date_string_witness :
  strptime (date_string 2024 2 29) = Ok (midnight 2024 2 29).
Proof. apply strptime_date_string; vm_compute; split; discriminate. Defined.

Lemma strptime_sound_witness :
  exists y m d, 1 <= y /\ 1 <= m <= 12 /\ 1 <= d <= Clock._days_in_month y m /\
                1704412800 = midnight y m d.
Proof. apply (strptime_sound "2024-01-05"). reflexivity. Defined.


Lemma dateRange_needs_both_witness :
  dateRange (Some "2024-01-05"%string) None 1700000000 = Ok (yesterday_range 1700000000).
Proof. apply dateRange_needs_both. reflexivity. Defined.

End Args.
