(* ===== verification/Publish.v ===== *)
(** * Publish: the interface to Home Assistant and the write-back

    [HomeAssistantApi] is what the script needs from the HA server: the
    GET of [/api/long_term_stats] (line 56) and the POST of
    [/api/services/recorder/import_statistics] (lines 229, 244, 259).  A
    server is any type with these two operations; a POST may change it.
    The URL and the token are fixed for a run and part of the server.

    Lines 213-263 build three payloads (battery out, Enedis out, battery
    stock, in this order), POST each one and print a success or an error
    line for each; a failed POST does not stop the others.  An exception
    raised by [requests.post] (no connection) is not modelled. *)

From S2P Require Import Prelude Json Battery Loop.
From Stdlib Require Import String.
Import ListNotations.
Open Scope Z_scope.
Local Open Scope bool_scope.

Module Publish.
Import Json Loop.

(** Lines 17-24: the three output statistics. *)
Definition HA_STAT_BATTERY_STOCK : string := "sensor.urbansolar_battery_stock".
Definition HA_STAT_BATTERY_STOCK_NAME : string := "Urbansolar Battery Stock".
Definition HA_STAT_BATTERY_OUT : string := "sensor.urbansolar_battery_out".
Definition HA_STAT_BATTERY_OUT_NAME : string := "Urbansolar Battery Out".
Definition HA_STAT_ENEDIS_OUT : string := "sensor.urbansolar_enedis_out".
Definition HA_STAT_ENEDIS_OUT_NAME : string := "Urbansolar Enedis Out".

(** The JSON body of an [import_statistics] call. *)
Record payload := mkPayload {
  has_mean : bool;
  has_sum : bool;
  source : string;
  name : string;
  statistic_id : string;
  unit_of_measurement : string;
  stats : list stat
}.

(** What the script needs from HA. *)
Class HomeAssistantApi (Server : Type) := {
  (** [requests.get(url, headers, params)]: the status code and
      [response.json()]. *)
  long_term_stats : Server -> list (string * string) -> Z * json;
  (** [requests.post(url, headers, json=payload)]: the server after the
      call and the status code. *)
  import_statistics : Server -> payload -> Server * Z
}.

(** Lines 220-228. *)
Definition batteryOutPayload (ls : LoopState) : payload :=
  mkPayload false true "recorder" HA_STAT_BATTERY_OUT_NAME HA_STAT_BATTERY_OUT "Wh"
    (statsBatteryOutList ls).

(** Lines 235-243. *)
Definition enedisOutPayload (ls : LoopState) : payload :=
  mkPayload false true "recorder" HA_STAT_ENEDIS_OUT_NAME HA_STAT_ENEDIS_OUT "Wh"
    (statsEnedisOutList ls).

(** Lines 250-258: the stock, in Wh, under the unit "kWh". *)
Definition batteryStockPayload (ls : LoopState) : payload :=
  mkPayload false false "recorder" HA_STAT_BATTERY_STOCK_NAME HA_STAT_BATTERY_STOCK "kWh"
    (statsBatteryStockList ls).

(** The three payloads, in the order they are sent. *)
Definition payloads (ls : LoopState) : list payload :=
  [batteryOutPayload ls; enedisOutPayload ls; batteryStockPayload ls].

(** The line printed after a POST. *)
Inductive report :=
| Sent (id : string)                 (** "Data sent to Home Assistant (id)" *)
| SendFailed (id : string) (status : Z). (** "Error while sending data ..." *)

Definition report_id (r : report) : string :=
  match r with Sent id => id | SendFailed id _ => id end.

(** Lines 230-233: [if res.status_code in (200, 201)]. *)
Definition report_of (p : payload) (status : Z) : report :=
  if (status =? 200) || (status =? 201) then Sent (statistic_id p)
  else SendFailed (statistic_id p) status.

Section Post.
Context {Server : Type} {api : HomeAssistantApi Server}.

(** POST the payloads one after the other, whatever the status of the
    previous one. *)
Fixpoint post_all (srv : Server) (ps : list payload) : Server * list report :=
  match ps with
  | [] => (srv, [])
  | p :: ps' =>
      let '(srv', status) := import_statistics srv p in
      let '(srv'', rs) := post_all srv' ps' in
      (srv'', report_of p status :: rs)
  end.

(** Lines 213-263. *)
Definition publish (srv : Server) (ls : LoopState) : Server * list report :=
  post_all srv (payloads ls).

Lemma post_all_ids (srv : Server) (ps : list payload) :
  map report_id (snd (post_all srv ps)) = map statistic_id ps.
Proof.
  revert srv; induction ps as [|p ps IH]; intros srv; [reflexivity|].
  simpl. destruct (import_statistics srv p) as [srv' st].
  specialize (IH srv'). destruct (post_all srv' ps) as [srv'' rs]. simpl in *.
  rewrite IH. unfold report_of. destruct (_ || _); reflexivity.
Qed.

(** C20: The write-back always sends the three series, battery out,
    Enedis out, then battery stock, one POST each, whatever statuses the
    server answers: a failed POST is reported and the next one is still
    sent. *)
Theorem publish_sends_all_three (srv : Server) (ls : LoopState) :
  map report_id (snd (publish srv ls)) =
  [HA_STAT_BATTERY_OUT; HA_STAT_ENEDIS_OUT; HA_STAT_BATTERY_STOCK].
Proof. unfold publish. rewrite post_all_ids. reflexivity. Qed.

End Post.

(** C27: Every payload of a successful loop is well formed for HA's
    recorder: the records of a payload with [has_sum] carry the key
    ["sum"], those of the payload without it the key ["state"]. *)
Theorem payload_keys_match (s : Battery.BatteryState) (injs conss : list json) (ls : LoopState) :
  process s injs conss = Ok ls ->
  Forall (fun p => Forall (fun r => key r = if has_sum p then "sum"%string else "state"%string)
                          (stats p)) (payloads ls).
Proof.
  intros H. apply process_Ok_inv in H as (hs & _ & ->).
  do 3 (apply Forall_cons; [cbn; apply records_key|]). apply Forall_nil.
Qed.

Lemma payload_keys_match_witness :
  Forall (fun p => Forall (fun r => key r = if has_sum p then "sum"%string else "state"%string)
                          (stats p)) (payloads (expected sample_seed sample_hours)).
Proof.
  apply (payload_keys_match sample_seed sample_injections sample_consumptions).
  vm_compute. reflexivity.
Defined.


End Publish.
