(* ===== verification/Script.v ===== *)
(** * Script: the whole run of src/virtualBattery_to_ha.py

    [getStatistics] (lines 43-63) builds the query of one statistic and
    returns [data["message"]] on a 200 answer, [None] otherwise.
    [prepare] is the script up to the end of the loop (lines 77-210): the
    configuration check, the date range ([Args]), the five seeds and the
    two curves ([Seeds]), and the loop ([Loop]); every error it meets
    ends the script before anything is sent.  [main] adds the write-back
    ([Publish]).  The server is any instance of
    [Publish.HomeAssistantApi]; [Recorder] is a server that answers GETs
    from a table and records the POSTs, used by the witnesses.  The
    theorems show that a run writes all or nothing, what stops it, and
    that it reaches the write-back on well-formed answers. *)

From S2P Require Import Prelude Json Clock Battery Loop Seeds Args Publish.
From Stdlib Require Import String.
Import ListNotations.
Open Scope Z_scope.
Local Open Scope vb_scope.
Local Open Scope bool_scope.

Module Script.
Import Json Publish.

(** Lines 26-30: the two input curves (the names are not used). *)
Definition HA_STAT_CONSUMPTION_CURVE : string := "sensor.linky_hourly_consumption".
Definition HA_STAT_CONSUMPTION_CURVE_NAME : string := "Linky Hourly Consumption".
Definition HA_STAT_PROD_CURVE : string := "sensor.linky_hourly_injection".
Definition HA_STAT_PROD_CURVE_NAME : string := "Linky Hourly Injection".

(** Lines 14-15: [os.getenv]. *)
Record Environment := mkEnvironment { HA_TOKEN : option string; HA_URL : option string }.

(** Why the script stops with [exit(1)] or a traceback. *)
Inductive ScriptError :=
| ConfigMissing                        (** lines 78-80 *)
| DateError (e : Args.ArgError)        (** lines 89-91 *)
| SeedFailure (e : Seeds.SeedError)    (** lines 102-104, 139-141, 153-155 *)
| LoopFailure (e : Loop.LoopError)     (** line 169, or an exception in the loop *)
| Exception (e : py_error).            (** [data["message"]], [zip] of a non-iterable *)

Definition fromArgs {A} (r : result A Args.ArgError) : result A ScriptError :=
  match r with Ok a => Ok a | Err e => Err (DateError e) end.
Definition fromSeeds {A} (r : result A Seeds.SeedError) : result A ScriptError :=
  match r with Ok a => Ok a | Err e => Err (SeedFailure e) end.
Definition fromLoop {A} (r : result A Loop.LoopError) : result A ScriptError :=
  match r with Ok a => Ok a | Err e => Err (LoopFailure e) end.
Definition fromPy {A} (r : result A py_error) : result A ScriptError :=
  match r with Ok a => Ok a | Err e => Err (Exception e) end.

(** [date.isoformat(sep=' ') + GMT] (lines 51, 54). *)
Definition isoparam (date : Z) : string :=
  (Clock.strftime (Clock.civil_of_seconds date) ++ Clock.GMT)%string.

(** Lines 49-54: the query of [getStatistics]. *)
Definition statistics_params (sensorId : string) (date : Z) (endate : option Z)
  : list (string * string) :=
  [("entity_id"%string, sensorId); ("datetime"%string, isoparam date)] ++
  match endate with
  | Some e => [("end_datetime"%string, isoparam e)]
  | None => []
  end.

(** What HA may answer for an index the script reads: no statistic
    (any status but 200), or a statistic whose [sum] is the number
    [v]. *)
Inductive index_answer : Z * json -> Z -> Prop :=
| index_absent (status : Z) (data : json) : status <> 200 -> index_answer (status, data) 0
| index_found (fs : list (string * json)) (v : Z) :
    assoc_last "sum" fs = Some (JNum v) ->
    index_answer (200, JObj [("message"%string, JObj fs)]) v.

Section Run.
Context {Server : Type} {api : HomeAssistantApi Server}.

(** Lines 43-63.  The body of a 200 answer reaches the model already
    decoded ([long_term_stats] answers a [json]): the [JSONDecodeError]
    that [response.json()] raises on a body that is not JSON is not
    modelled, and neither is an exception of [requests.get] itself. *)
Definition getStatistics (srv : Server) (sensorId : string) (date : Z) (endate : option Z)
  : result (option json) ScriptError :=
  let params := statistics_params sensorId date endate in
  let '(status, data) := long_term_stats srv params in
  if status =? 200 then m <- fromPy (getitem data "message") ;; Ok (Some m)
  else Ok None.

(** Lines 77-210: everything before the write-back. *)
Definition prepare (srv : Server) (env : Environment) (startArg endArg : option string) (now : Z)
  : result Loop.LoopState ScriptError :=
  if negb (Args.given (HA_TOKEN env) && Args.given (HA_URL env)) then Err ConfigMissing
  else
    '(startDate, endDate) <- fromArgs (Args.dateRange startArg endArg now) ;;
    stockMsg <- getStatistics srv HA_STAT_BATTERY_STOCK startDate None ;;
    previousBatteryStock <- fromSeeds (Seeds.readBatteryStock stockMsg) ;;
    outMsg <- getStatistics srv HA_STAT_BATTERY_OUT startDate None ;;
    previousBatteryOut <- fromSeeds (Seeds.readIndex outMsg) ;;
    enedisMsg <- getStatistics srv HA_STAT_ENEDIS_OUT startDate None ;;
    previousEnedisOut <- fromSeeds (Seeds.readIndex enedisMsg) ;;
    injectionMsg <- getStatistics srv HA_STAT_PROD_CURVE startDate None ;;
    previousInjectionIndex <- fromSeeds (Seeds.readIndex injectionMsg) ;;
    injectionResp <- getStatistics srv HA_STAT_PROD_CURVE (startDate + 3600) (Some (endDate + 3600)) ;;
    injectionDataList <- fromSeeds (Seeds.readCurve Seeds.InjectionDataNotFound injectionResp) ;;
    consumptionMsg <- getStatistics srv HA_STAT_CONSUMPTION_CURVE startDate None ;;
    previousConsumtionIndex <- fromSeeds (Seeds.readIndex consumptionMsg) ;;
    consumptionResp <-
      getStatistics srv HA_STAT_CONSUMPTION_CURVE (startDate + 3600) (Some (endDate + 3600)) ;;
    consumptionDataList <-
      fromSeeds (Seeds.readCurve Seeds.ConsumptionDataNotFound consumptionResp) ;;
    injectionRows <- fromPy (Seeds.iter_json injectionDataList) ;;
    consumptionRows <- fromPy (Seeds.iter_json consumptionDataList) ;;
    fromLoop (Loop.process
      (Battery.mkBatteryState previousBatteryStock previousBatteryOut previousEnedisOut
         previousInjectionIndex previousConsumtionIndex)
      injectionRows consumptionRows).

(** How the script ends. *)
Inductive Exit := Exit1 (e : ScriptError) | Exit0.

(** Lines 77-263: the run, the server after it, and the lines printed
    by the write-back. *)
Definition main (srv : Server) (env : Environment) (startArg endArg : option string) (now : Z)
  : Server * Exit * list report :=
  match prepare srv env startArg endArg now with
  | Err e => (srv, Exit1 e, [])
  | Ok ls => let '(srv', reports) := publish srv ls in (srv', Exit0, reports)
  end.

(** ** Lemmas *)

Lemma fromSeeds_Ok {A} (r : result A Seeds.SeedError) (a : A) : fromSeeds r = Ok a -> r = Ok a.
Proof. destruct r; simpl; congruence. Qed.

Lemma fromLoop_Ok {A} (r : result A Loop.LoopError) (a : A) : fromLoop r = Ok a -> r = Ok a.
Proof. destruct r; simpl; congruence. Qed.

(** A statistic found: [getStatistics] gives its message. *)
Lemma getStatistics_found (srv : Server) (sensorId : string) (date : Z) (endate : option Z)
  (m : json) :
  long_term_stats srv (statistics_params sensorId date endate) =
    (200, JObj [("message"%string, m)]) ->
  getStatistics srv sensorId date endate = Ok (Some m).
Proof. intros H. unfold getStatistics. now rewrite H. Qed.

(** Reading an index: what [getStatistics] and [readIndex] give to the
    rest of the script. *)
Lemma read_index_step {B} (srv : Server) (sensorId : string) (date v : Z)
  (k : Z -> result B ScriptError) :
  index_answer (long_term_stats srv (statistics_params sensorId date None)) v ->
  bind (getStatistics srv sensorId date None) (fun m => bind (fromSeeds (Seeds.readIndex m)) k)
  = k v.
Proof.
  intros H. remember (long_term_stats _ _) as a eqn:Ha. destruct H as [st data Hst | fs v Hs].
  - unfold getStatistics. rewrite <- Ha. destruct (Z.eqb_spec st 200); [contradiction|].
    reflexivity.
  - rewrite (getStatistics_found _ _ _ _ _ (eq_sym Ha)). cbn [bind].
    now rewrite (Seeds.readIndex_num _ _ Hs).
Qed.

Lemma read_stock_step {B} (srv : Server) (date : Z) (fs : list (string * json)) (n : Z)
  (k : Z -> result B ScriptError) :
  long_term_stats srv (statistics_params HA_STAT_BATTERY_STOCK date None) =
    (200, JObj [("message"%string, JObj fs)]) ->
  assoc_last "state" fs = Some (JNum n) -> n <> 0 ->
  bind (getStatistics srv HA_STAT_BATTERY_STOCK date None)
    (fun m => bind (fromSeeds (Seeds.readBatteryStock m)) k) = k (n * 1000).
Proof.
  intros Ha Hs Hn. rewrite (getStatistics_found _ _ _ _ _ Ha). cbn [bind].
  now rewrite (Seeds.readBatteryStock_num _ _ Hs Hn).
Qed.

Lemma read_curve_step {B} (srv : Server) (sensorId : string) (date : Z) (endate : option Z)
  (notFound : Seeds.SeedError) (rows : list json) (k : json -> result B ScriptError) :
  long_term_stats srv (statistics_params sensorId date endate) =
    (200, JObj [("message"%string, JList rows)]) -> rows <> [] ->
  bind (getStatistics srv sensorId date endate)
    (fun m => bind (fromSeeds (Seeds.readCurve notFound m)) k) = k (JList rows).
Proof.
  intros Ha Hr. rewrite (getStatistics_found _ _ _ _ _ Ha). cbn [bind].
  destruct rows; [contradiction | reflexivity].
Qed.

(** ** Properties of the whole run *)

(** C7: A run writes all or nothing: either it stops before the
    write-back, with the server untouched and no POST, or it ends with
    exit status 0 after one POST per series, battery out, Enedis out and
    battery stock, whatever the POSTs answer. *)
Theorem main_all_or_nothing (srv : Server) (env : Environment) (startArg endArg : option string)
  (now : Z) :
  let '(srv', ex, reports) := main srv env startArg endArg now in
  (exists e, ex = Exit1 e /\ srv' = srv /\ reports = []) \/
  (ex = Exit0 /\ map report_id reports = [HA_STAT_BATTERY_OUT; HA_STAT_ENEDIS_OUT; HA_STAT_BATTERY_STOCK]).
Proof.
  unfold main. destruct (prepare srv env startArg endArg now) as [ls|e]; [|left; eauto].
  pose proof (post_all_ids srv (payloads ls)) as Hids. unfold publish.
  destruct (post_all srv (payloads ls)) as [srv' reports]. right. split; [reflexivity | exact Hids].
Qed.

(** C18: Scenario 3 of the spec: when HA has no stock statistic at the
    start date (any answer but 200), a run with a valid configuration and
    date range stops with [BatteryStockNotFound] before any other query,
    any simulation step or any write. *)
Theorem stock_missing_aborts (srv : Server) (env : Environment) (startArg endArg : option string)
  (now startDate endDate : Z) :
  Args.given (HA_TOKEN env) && Args.given (HA_URL env) = true ->
  Args.dateRange startArg endArg now = Ok (startDate, endDate) ->
  fst (long_term_stats srv
         [("entity_id"%string, HA_STAT_BATTERY_STOCK); ("datetime"%string, isoparam startDate)])
    <> 200 ->
  main srv env startArg endArg now = (srv, Exit1 (SeedFailure Seeds.BatteryStockNotFound), []).
Proof.
  intros Hcfg Hdates Hstatus. unfold main, prepare. rewrite Hcfg, Hdates. simpl.
  unfold getStatistics. simpl.
  destruct (long_term_stats srv _) as [status data]. simpl in Hstatus.
  destruct (Z.eqb_spec status 200); [contradiction | reflexivity].
Qed.

(** C19: Every successful run is the loop from the seeds it read:
    the date range it parsed, the stock read from HA (times 1000), the
    battery-out, Enedis-out, injection and consumption indices read from
    their own statistics at the start date, and the two curves read over
    the range moved by one hour, each in its place in the initial
    state. *)
Theorem prepare_refines_process (srv : Server) (env : Environment)
  (startArg endArg : option string) (now : Z) (ls : Loop.LoopState) :
  prepare srv env startArg endArg now = Ok ls ->
  exists startDate endDate stock vOut vEnedis vInj vCons injectionRows consumptionRows,
    fromArgs (Args.dateRange startArg endArg now) = Ok (startDate, endDate) /\
    (m <- getStatistics srv HA_STAT_BATTERY_STOCK startDate None ;;
     fromSeeds (Seeds.readBatteryStock m)) = Ok stock /\
    (m <- getStatistics srv HA_STAT_BATTERY_OUT startDate None ;;
     fromSeeds (Seeds.readIndex m)) = Ok vOut /\
    (m <- getStatistics srv HA_STAT_ENEDIS_OUT startDate None ;;
     fromSeeds (Seeds.readIndex m)) = Ok vEnedis /\
    (m <- getStatistics srv HA_STAT_PROD_CURVE startDate None ;;
     fromSeeds (Seeds.readIndex m)) = Ok vInj /\
    (m <- getStatistics srv HA_STAT_CONSUMPTION_CURVE startDate None ;;
     fromSeeds (Seeds.readIndex m)) = Ok vCons /\
    (m <- getStatistics srv HA_STAT_PROD_CURVE (startDate + 3600) (Some (endDate + 3600)) ;;
     d <- fromSeeds (Seeds.readCurve Seeds.InjectionDataNotFound m) ;;
     fromPy (Seeds.iter_json d)) = Ok injectionRows /\
    (m <- getStatistics srv HA_STAT_CONSUMPTION_CURVE (startDate + 3600) (Some (endDate + 3600)) ;;
     d <- fromSeeds (Seeds.readCurve Seeds.ConsumptionDataNotFound m) ;;
     fromPy (Seeds.iter_json d)) = Ok consumptionRows /\
    Loop.process (Battery.mkBatteryState stock vOut vEnedis vInj vCons)
      injectionRows consumptionRows = Ok ls.
Proof.
  unfold prepare. destruct (negb _); [discriminate|].
  intros H. inv_ok. destruct a as [startDate endDate]. inv_ok.
  apply fromLoop_Ok in H.
  exists startDate, endDate, a0, a2, a4, a6, a10, a13, a14. repeat split;
    repeat match goal with H : ?x = Ok _ |- context [?x] => rewrite H; cbn [bind] end;
    first [eassumption | reflexivity].
Qed.

(** C28: Progress: a run with a valid configuration and date range,
    against an HA that holds a non-zero stock, answers each of the four
    indices with a [sum] or not at all, and returns two non-empty curves
    whose zipped rows decode, reaches the write-back: it exits 0 after
    posting the loop's results from the seeds read, the stock in Wh and
    each index as found or 0. *)
Theorem main_reaches_write_back (srv : Server) (env : Environment)
  (startArg endArg : option string) (now startDate endDate : Z)
  (fs : list (string * json)) (n vOut vEnedis vInj vCons : Z)
  (injectionRows consumptionRows : list json) (hs : list (Z * (Z * Z))) :
  Args.given (HA_TOKEN env) && Args.given (HA_URL env) = true ->
  Args.dateRange startArg endArg now = Ok (startDate, endDate) ->
  long_term_stats srv (statistics_params HA_STAT_BATTERY_STOCK startDate None) =
    (200, JObj [("message"%string, JObj fs)]) ->
  assoc_last "state" fs = Some (JNum n) -> n <> 0 ->
  index_answer (long_term_stats srv (statistics_params HA_STAT_BATTERY_OUT startDate None)) vOut ->
  index_answer (long_term_stats srv (statistics_params HA_STAT_ENEDIS_OUT startDate None)) vEnedis ->
  index_answer (long_term_stats srv (statistics_params HA_STAT_PROD_CURVE startDate None)) vInj ->
  index_answer (long_term_stats srv (statistics_params HA_STAT_CONSUMPTION_CURVE startDate None))
    vCons ->
  long_term_stats srv
    (statistics_params HA_STAT_PROD_CURVE (startDate + 3600) (Some (endDate + 3600))) =
    (200, JObj [("message"%string, JList injectionRows)]) -> injectionRows <> [] ->
  long_term_stats srv
    (statistics_params HA_STAT_CONSUMPTION_CURVE (startDate + 3600) (Some (endDate + 3600))) =
    (200, JObj [("message"%string, JList consumptionRows)]) -> consumptionRows <> [] ->
  Loop.decode (combine injectionRows consumptionRows) = Some hs ->
  main srv env startArg endArg now =
    let '(srv', reports) :=
      publish srv (Loop.expected (Battery.mkBatteryState (n * 1000) vOut vEnedis vInj vCons) hs) in
    (srv', Exit0, reports).
Proof.
  intros Hcfg Hdates Hstock Hst Hn Hout Hened Hinj Hcons Hic Hi Hcc Hc Hd.
  unfold main, prepare. rewrite Hcfg, Hdates. cbn [negb fromArgs bind].
  rewrite (read_stock_step _ _ _ _ _ Hstock Hst Hn), (read_index_step _ _ _ _ _ Hout),
    (read_index_step _ _ _ _ _ Hened), (read_index_step _ _ _ _ _ Hinj),
    (read_curve_step _ _ _ _ _ _ _ Hic Hi), (read_index_step _ _ _ _ _ Hcons),
    (read_curve_step _ _ _ _ _ _ _ Hcc Hc).
  cbn [fromPy Seeds.iter_json bind]. now rewrite (Loop.process_decoded _ _ _ _ Hd).
Qed.

End Run.

(** ** A recording server *)

(** A server that answers GETs from a fixed table and keeps the
    payloads POSTed to it, answering 201. *)
Record Recorder := mkRecorder {
  answers : list (string * string) -> Z * json;
  posted : list payload
}.

#[export] Instance recorder_api : HomeAssistantApi Recorder := {|
  long_term_stats srv params := answers srv params;
  import_statistics srv p := (mkRecorder (answers srv) (posted srv ++ [p]), 201)
|}.

(** An HA that knows nothing. *)
Definition empty_answers (params : list (string * string)) : Z * json := (404, JNull).

(** The HA of scenario 6: a stock of 1 kWh, no battery-out, Enedis-out
    or index statistic, and two hours of curves (2023-11-15 01:00 and
    02:00 in UTC+3). *)
Definition scenario6_answers (params : list (string * string)) : Z * json :=
  let id := match params with (_, v) :: _ => v | [] => ""%string end in
  let ranged := Nat.eqb (List.length params) 3 in
  if String.eqb id HA_STAT_BATTERY_STOCK && negb ranged then
    (200, JObj [("message"%string, JObj [("state"%string, JNum 1)])])
  else if String.eqb id HA_STAT_PROD_CURVE && ranged then
    (200, JObj [("message"%string, JList [Loop.row 1699999200 2000; Loop.row 1700002800 2000])])
  else if String.eqb id HA_STAT_CONSUMPTION_CURVE && ranged then
    (200, JObj [("message"%string, JList [Loop.row 1699999200 3000; Loop.row 1700002800 4000])])
  else (404, JNull).

Definition configured : Environment := mkEnvironment (Some "token"%string) (Some "http://ha:8123"%string).

(** C30: The seed queries of a run and the records of the runs before
    it name hours alike: the query at the naive date [d] (its
    [isoformat] followed by "+03:00") is the [start] string of exactly
    one record, the one of timestamp [d - 3 h], among the printable
    timestamps.  So the next day's seeds are looked up at the record of
    the hour the previous run wrote last. *)
Theorem isoparam_names_record (d ts : Z) :
  Clock.printable_ts ts -> Clock.printable_ts (d - Clock.GMT_INT * 3600) ->
  isoparam d = Clock.start_string ts <-> ts = d - Clock.GMT_INT * 3600.
Proof.
  intros Ht Hd.
  assert (E : isoparam d = Clock.start_string (d - Clock.GMT_INT * 3600)).
  { unfold isoparam, Clock.start_string, Clock.fromtimestamp. now rewrite Z.sub_add. }
  rewrite E. split; [intros H; symmetry; exact (Clock.start_string_inj _ _ Hd Ht H) | now intros ->].
Qed.

(** ** Witnesses *)

Lemma stock_missing_aborts_witness :
  main (mkRecorder empty_answers []) configured None None 1700000000 =
  (mkRecorder empty_answers [], Exit1 (SeedFailure Seeds.BatteryStockNotFound), []).
Proof.
  apply (stock_missing_aborts _ _ _ _ _ (fst (Args.yesterday_range 1700000000))
           (snd (Args.yesterday_range 1700000000))); [reflexivity | reflexivity | discriminate].
Defined.

Lemma main_reaches_write_back_witness :
  main (mkRecorder scenario6_answers []) configured None None 1700000000 =
  let '(srv', reports) :=
    publish (mkRecorder scenario6_answers [])
      (Loop.expected (Battery.mkBatteryState (1 * 1000) 0 0 0 0)
         [(1699999200, (2000, 3000)); (1700002800, (2000, 4000))]) in
  (srv', Exit0, reports).
Proof.
  apply (main_reaches_write_back _ _ _ _ _ (fst (Args.yesterday_range 1700000000))
    (snd (Args.yesterday_range 1700000000)) [("state"%string, JNum 1)] _ _ _ _ _
    [Loop.row 1699999200 2000; Loop.row 1700002800 2000]
    [Loop.row 1699999200 3000; Loop.row 1700002800 4000]).
  all: try (vm_compute; reflexivity); try discriminate;
    vm_compute; apply index_absent; discriminate.
Defined.

Lemma isoparam_names_record_witness :
  isoparam 1700002800 = Clock.start_string 1699992000 <-> 1699992000 = 1700002800 - Clock.GMT_INT * 3600.
Proof.
  apply isoparam_names_record; unfold Clock.printable_ts, Clock.GMT_INT; lia.
Defined.

Lemma prepare_refines_process_witness :
  exists startDate endDate stock vOut vEnedis vInj vCons injectionRows consumptionRows,
    fromArgs (Args.dateRange None None 1700000000) = Ok (startDate, endDate) /\
    (m <- getStatistics (mkRecorder scenario6_answers []) HA_STAT_BATTERY_STOCK startDate None ;;
     fromSeeds (Seeds.readBatteryStock m)) = Ok stock /\
    (m <- getStatistics (mkRecorder scenario6_answers []) HA_STAT_BATTERY_OUT startDate None ;;
     fromSeeds (Seeds.readIndex m)) = Ok vOut /\
    (m <- getStatistics (mkRecorder scenario6_answers []) HA_STAT_ENEDIS_OUT startDate None ;;
     fromSeeds (Seeds.readIndex m)) = Ok vEnedis /\
    (m <- getStatistics (mkRecorder scenario6_answers []) HA_STAT_PROD_CURVE startDate None ;;
     fromSeeds (Seeds.readIndex m)) = Ok vInj /\
    (m <- getStatistics (mkRecorder scenario6_answers []) HA_STAT_CONSUMPTION_CURVE startDate None ;;
     fromSeeds (Seeds.readIndex m)) = Ok vCons /\
    (m <- getStatistics (mkRecorder scenario6_answers []) HA_STAT_PROD_CURVE (startDate + 3600)
           (Some (endDate + 3600)) ;;
     d <- fromSeeds (Seeds.readCurve Seeds.InjectionDataNotFound m) ;;
     fromPy (Seeds.iter_json d)) = Ok injectionRows /\
    (m <- getStatistics (mkRecorder scenario6_answers []) HA_STAT_CONSUMPTION_CURVE (startDate + 3600)
           (Some (endDate + 3600)) ;;
     d <- fromSeeds (Seeds.readCurve Seeds.ConsumptionDataNotFound m) ;;
     fromPy (Seeds.iter_json d)) = Ok consumptionRows /\
    Loop.process (Battery.mkBatteryState stock vOut vEnedis vInj vCons)
      injectionRows consumptionRows =
    Ok (Loop.expected (Battery.mkBatteryState 1000 0 0 0 0)
          [(1699999200, (2000, 3000)); (1700002800, (2000, 4000))]).
Proof.
  apply (prepare_refines_process (mkRecorder scenario6_answers []) configured None None 1700000000).
  vm_compute. reflexivity.
Defined.

End Script.
