(* ===== verification/Store.v ===== *)
(** * Store: a statistics store behind the interface, and the next run

    The script meets Home Assistant only through
    [Publish.HomeAssistantApi].  This file gives one server of that
    interface that keeps what it is sent, after the read and write
    contracts of the spec (section 6): [import_statistics] appends the
    records of a payload to the statistic it names; a point query
    ([entity_id] and [datetime], as [getStatistics] sends it without
    [endate]) on a statistic that has a record starting at [datetime]
    answers 200 with that record as [{"state": v}] or [{"sum": v}] (the
    last one imported wins); every other query is answered by [linky],
    the part of HA the script only reads (the Linky curves).  HA itself
    is not part of the repository: this is a model of its contract, not
    a translation.

    The theorem composes the write-back of one run with the seed reads
    of the next one: run at the naive date of the last hour written, the
    next run starts from the sums of that hour, and from 1000 times its
    stock. *)

From S2P Require Import Prelude Json Clock Battery Loop Seeds Publish Script.
From Stdlib Require Import String Bool.
Import ListNotations.
Open Scope Z_scope.
Local Open Scope vb_scope.
Local Open Scope bool_scope.

Module Store.
Import Json Loop Publish Script.

Record Store := mkStore {
  linky : list (string * string) -> Z * json;
  imported : list (string * stat)
}.

(** The last record of statistic [id] that starts at [t]. *)
Fixpoint last_match (id t : string) (l : list (string * stat)) : option stat :=
  match l with
  | [] => None
  | (id', r) :: l' =>
      match last_match id t l' with
      | Some r' => Some r'
      | None => if String.eqb id id' && String.eqb (start r) t then Some r else None
      end
  end.

Definition answer_of (r : stat) : Z * json :=
  (200, JObj [("message"%string, JObj [(key r, JNum (value r))])]).

#[export] Instance store_api : HomeAssistantApi Store := {|
  long_term_stats st params :=
    match params with
    | [(e, id); (dt, t)] =>
        if String.eqb e "entity_id" && String.eqb dt "datetime" then
          match last_match id t (imported st) with
          | Some r => answer_of r
          | None => linky st params
          end
        else linky st params
    | _ => linky st params
    end;
  import_statistics st p :=
    (mkStore (linky st) (imported st ++ map (pair (statistic_id p)) (stats p)), 200)
|}.

(** ** Lemmas *)

Lemma last_match_app (id t : string) (l1 l2 : list (string * stat)) :
  last_match id t (l1 ++ l2) =
  match last_match id t l2 with Some r => Some r | None => last_match id t l1 end.
Proof.
  induction l1 as [|[id' r] l1 IH]; simpl; [now destruct (last_match id t l2)|].
  rewrite IH. now destruct (last_match id t l2).
Qed.

Lemma last_match_other (id id' t : string) (rs : list stat) :
  id <> id' -> last_match id t (map (pair id') rs) = None.
Proof.
  intros Hne. induction rs as [|r rs IH]; [reflexivity|]. simpl. rewrite IH.
  destruct (String.eqb_spec id id'); [contradiction | reflexivity].
Qed.

Lemma last_match_last (id t : string) (rs : list stat) (r : stat) :
  start r = t -> last_match id t (map (pair id) (rs ++ [r])) = Some r.
Proof.
  intros Ht. rewrite map_app, last_match_app. simpl.
  now rewrite String.eqb_refl, Ht, String.eqb_refl.
Qed.

(** A store keeps every payload POSTed to it, in order. *)
Lemma post_all_store (st : Store) (ps : list payload) :
  fst (post_all st ps) =
  mkStore (linky st) (imported st ++ flat_map (fun p => map (pair (statistic_id p)) (stats p)) ps).
Proof.
  revert st; induction ps as [|p ps IH]; intros st; [destruct st; simpl; now rewrite app_nil_r|].
  simpl. specialize (IH (mkStore (linky st) (imported st ++ map (pair (statistic_id p)) (stats p)))).
  destruct (post_all _ ps) as [st' rs]. cbn [fst linky imported] in *. rewrite IH. simpl. now rewrite <- app_assoc.
Qed.

(** A point query for a statistic that has a record at [t]. *)
Lemma getStatistics_imported (st : Store) (id t : string) (d : Z) (r : stat) :
  isoparam d = t -> last_match id t (imported st) = Some r ->
  getStatistics st id d None = Ok (Some (JObj [(key r, JNum (value r))])).
Proof.
  intros Hd Hr. unfold getStatistics, statistics_params. rewrite app_nil_r, Hd.
  cbn [long_term_stats store_api]. rewrite Hr. reflexivity.
Qed.

(** The three series a write-back appends, each ending with a record
    at [t]: a point query at [t] finds the last record of each one. *)
Lemma last_match_published (l : list (string * stat)) (o e k : list stat) (ro re rk : stat)
  (t : string) :
  start ro = t -> start re = t -> start rk = t ->
  let L := l ++ map (pair HA_STAT_BATTERY_OUT) (o ++ [ro]) ++
           map (pair HA_STAT_ENEDIS_OUT) (e ++ [re]) ++ map (pair HA_STAT_BATTERY_STOCK) (k ++ [rk]) in
  last_match HA_STAT_BATTERY_OUT t L = Some ro /\ last_match HA_STAT_ENEDIS_OUT t L = Some re /\
  last_match HA_STAT_BATTERY_STOCK t L = Some rk.
Proof.
  intros Ho He Hk L. unfold L. rewrite !last_match_app, !last_match_last by assumption.
  rewrite (last_match_other HA_STAT_BATTERY_OUT HA_STAT_BATTERY_STOCK),
    (last_match_other HA_STAT_BATTERY_OUT HA_STAT_ENEDIS_OUT),
    (last_match_other HA_STAT_ENEDIS_OUT HA_STAT_BATTERY_STOCK) by discriminate.
  repeat split; reflexivity.
Qed.

(** ** Properties *)

(** C31: The next run continues from what this one wrote, with the
    stock scaled: after the write-back of a run whose last hour has
    timestamp [ts], a run at the naive date of that hour ([ts] + 3 h)
    reads as battery-out and Enedis-out seeds the sums of the last hour,
    and as stock 1000 times the stock of the last hour, or stops when
    that stock is 0. *)
Theorem next_run_seeds (st : Store) (s : Battery.BatteryState) (hs : list (Z * (Z * Z)))
  (ts x y : Z) :
  let t := Battery.final s (map snd (hs ++ [(ts, (x, y))])) in
  let st' := fst (publish st (expected s (hs ++ [(ts, (x, y))]))) in
  let d := ts + Clock.GMT_INT * 3600 in
  (m <- getStatistics st' HA_STAT_BATTERY_STOCK d None ;; fromSeeds (Seeds.readBatteryStock m)) =
    (if Battery.previousBatteryStock t =? 0 then Err (SeedFailure Seeds.BatteryStockNotFound)
     else Ok (Battery.previousBatteryStock t * 1000)) /\
  (m <- getStatistics st' HA_STAT_BATTERY_OUT d None ;; fromSeeds (Seeds.readIndex m)) =
    Ok (Battery.previousBatteryOut t) /\
  (m <- getStatistics st' HA_STAT_ENEDIS_OUT d None ;; fromSeeds (Seeds.readIndex m)) =
    Ok (Battery.previousEnedisOut t).
Proof.
  intros t st' d.
  assert (Hd : isoparam d = Clock.start_string ts).
  { unfold isoparam, d, Clock.start_string, Clock.fromtimestamp. reflexivity. }
  assert (Hst : imported st' = imported st ++
            map (pair HA_STAT_BATTERY_OUT) (records "sum" Battery.previousBatteryOut s (hs ++ [(ts, (x, y))])) ++
            map (pair HA_STAT_ENEDIS_OUT) (records "sum" Battery.previousEnedisOut s (hs ++ [(ts, (x, y))])) ++
            map (pair HA_STAT_BATTERY_STOCK)
              (records "state" Battery.previousBatteryStock s (hs ++ [(ts, (x, y))]))).
  { unfold st', publish. rewrite post_all_store. cbn. now rewrite !app_nil_r. }
  rewrite !records_snoc in Hst. fold t in Hst.
  assert (H3 :
    last_match HA_STAT_BATTERY_OUT (isoparam d) (imported st') =
      Some (mkStat (Clock.start_string ts) "sum" (Battery.previousBatteryOut t)) /\
    last_match HA_STAT_ENEDIS_OUT (isoparam d) (imported st') =
      Some (mkStat (Clock.start_string ts) "sum" (Battery.previousEnedisOut t)) /\
    last_match HA_STAT_BATTERY_STOCK (isoparam d) (imported st') =
      Some (mkStat (Clock.start_string ts) "state" (Battery.previousBatteryStock t))).
  { rewrite Hst, Hd. refine (last_match_published _ _ _ _ _ _ _ _ _ _ _); reflexivity. }
  destruct H3 as (Ho & He & Hk).
  rewrite (getStatistics_imported _ _ _ _ _ eq_refl Hk), (getStatistics_imported _ _ _ _ _ eq_refl Ho),
    (getStatistics_imported _ _ _ _ _ eq_refl He). cbn [bind key value].
  do 2 (erewrite Seeds.readIndex_num by reflexivity).
  repeat split. unfold Seeds.readBatteryStock. cbn.
  destruct (Z.eqb_spec (Battery.previousBatteryStock t) 0) as [->|Hn]; [reflexivity|].
  now destruct (Battery.previousBatteryStock t).
Qed.

End Store.
