(* ===== verification/Console.v ===== *)
(** * Console: what the script prints, up to the end of the loop

    Lines 43-210 of src/virtualBattery_to_ha.py print a line at every
    step: the answer of each [getStatistics] (lines 59, 62), the date
    range (lines 90-97), each seed found or defaulted (lines 99-155) and,
    for every hour, the date, the two energies and the stock (lines
    171-201).  This file translates those lines a second time, with
    their [print] calls, in a writer monad over [result]: a computation
    gives its outcome and the lines it printed, the lines printed before
    an error included.  [prepareLog] is [Script.prepare] with its output,
    and [val_prepareLog] shows that printing never changes the outcome.
    [stock_reports] reads back, from the lines of a run, the values of the
    lines "Battery Stock after consumption"; the theorem of this file is
    that they are the stock records the write-back posts.

    [print(a, b, ...)] joins its arguments with one space; an integer is
    printed in decimal ([str]); a datetime by [isoformat(sep=' ')].  The
    text of a [ValueError] raised by [strptime] is not modelled: its line
    is [DatesError].  The write-back lines are [Publish.report]; the text
    of a failed POST is not modelled. *)

From S2P Require Import Prelude Json Clock Battery Loop Seeds Args Publish Script.
From Stdlib Require Import String Bool DecimalString.
Import ListNotations.
Open Scope Z_scope.
Local Open Scope bool_scope.

Module Console.
Import Json Loop Publish Script.

(** A printed line. *)
Inductive line :=
| Text (s : string)                  (** a line whose text the code determines *)
| DatesError (e : Args.ArgError)     (** ["Error parsing dates:", e] (line 90) *)
| PostError (id : string) (status : Z). (** lines 233, 248, 263, without [res.text] *)

(** A computation of the script with its output. *)
Record logged (A : Type) := mkLogged { val : result A ScriptError; out : list line }.
Arguments mkLogged {A} val out.
Arguments val {A} l.
Arguments out {A} l.

Definition ret {A} (a : A) : logged A := mkLogged (Ok a) [].
Definition liftR {A} (r : result A ScriptError) : logged A := mkLogged r [].
Definition say (l : line) : logged unit := mkLogged (Ok tt) [l].

Definition bindL {A B} (m : logged A) (k : A -> logged B) : logged B :=
  match val m with
  | Ok a => let r := k a in mkLogged (val r) (out m ++ out r)
  | Err e => mkLogged (Err e) (out m)
  end.

Declare Scope log_scope.
Delimit Scope log_scope with log.
Notation "x <-- c ;; k" := (bindL c (fun x => k))
  (at level 61, c at next level, right associativity) : log_scope.
Notation "' pat <-- c ;; k" := (bindL c (fun x => match x with pat => k end))
  (at level 61, pat pattern, c at next level, right associativity) : log_scope.
Notation "c ;;; k" := (bindL c (fun _ => k))
  (at level 61, right associativity) : log_scope.
Local Open Scope log_scope.
Local Open Scope string_scope.

(** [str(z)] of a Python integer. *)
Definition str (z : Z) : string := NilZero.string_of_int (Z.to_int z).

(** [str(x)] of a JSON number or boolean, as [print] shows it. *)
Definition pystr (v : json) : string :=
  match v with
  | JBool true => "True"
  | JBool false => "False"
  | JNum z => str z
  | _ => ""
  end.

(** [print(a, b, ...)]. *)
Definition print (args : list string) : logged unit := say (Text (String.concat " " args)).

(** ** [getStatistics] and the seeds *)

(** Lines 43-63 with their prints: the line comes before
    [data["message"]] is read. *)
Definition getStatisticsLog {Server} `{HomeAssistantApi Server} (srv : Server)
  (sensorId : string) (date : Z) (endate : option Z) : logged (option json) :=
  let params := statistics_params sensorId date endate in
  let '(status, data) := long_term_stats srv params in
  if Z.eqb status 200 then
    print ["Found previous statistic for "; sensorId] ;;;
    m <-- liftR (fromPy (getitem data "message")) ;;
    ret (Some m)
  else
    print ["No previous statistic found for "; sensorId] ;;;
    ret None.

(** Lines 101-106. *)
Definition readBatteryStockLog (previousBatteryStock : option json) : logged Z :=
  let notFound := print ["ERROR: Battery stock not found"] ;;;
                  liftR (Err (SeedFailure Seeds.BatteryStockNotFound)) in
  match previousBatteryStock with
  | None => notFound
  | Some m =>
      if negb (truthy m) then notFound
      else
        state <-- liftR (fromSeeds (Seeds.liftPy (getitem m "state"))) ;;
        if negb (truthy state) then notFound
        else
          v <-- liftR (fromSeeds (Seeds.liftPy (as_number state))) ;;
          print ["Found battery stock of "; str (v * 1000); "Wh"] ;;;
          ret (v * 1000)
  end.

(** The two messages of an index block. *)
Record IndexMessages := mkIndexMessages { notFoundMsg : string; foundMsg : string }.

(** Lines 112 and 116. *)
Definition batteryOutMessages : IndexMessages :=
  mkIndexMessages "ERROR: Battery out not found. Starting from 0" "Found battery out index ".
(** Lines 122 and 126. *)
Definition enedisOutMessages : IndexMessages :=
  mkIndexMessages "ERROR: Enedis out not found. Starting from 0" "Found Enedis out index ".
(** Lines 132 and 136. *)
Definition injectionMessages : IndexMessages :=
  mkIndexMessages "ERROR: Previous Injection Index not found. Starting from 0" "Found Injection index ".
(** Lines 147 and 151: the messages of the injection block, copied. *)
Definition consumptionMessages : IndexMessages :=
  mkIndexMessages "ERROR: Previous Injection Index not found. Starting from 0" "Found Injection index ".

(** Lines 111-116 (and 121-126, 131-136, 146-151). *)
Definition readIndexLog (msgs : IndexMessages) (previous : option json) : logged Z :=
  let notFound := print [notFoundMsg msgs] ;;; ret 0 in
  match previous with
  | None => notFound
  | Some m =>
      if negb (truthy m) then notFound
      else
        sum <-- liftR (fromSeeds (Seeds.liftPy (getitem m "sum"))) ;;
        if negb (truthy sum) then notFound
        else
          v <-- liftR (fromSeeds (Seeds.liftPy (as_number sum))) ;;
          print [foundMsg msgs; pystr sum; "Wh"] ;;;
          ret v
  end.

(** Lines 139-141 and 153-155. *)
Definition readCurveLog (msg : string) (notFound : Seeds.SeedError) (dataList : option json)
  : logged json :=
  match dataList with
  | Some v => if truthy v then ret v
              else print [msg] ;;; liftR (Err (SeedFailure notFound))
  | None => print [msg] ;;; liftR (Err (SeedFailure notFound))
  end.

(** ** The date range *)

(** Lines 83-96. *)
Definition dateRangeLog (startArg endArg : option string) (now : Z) : logged (Z * Z) :=
  let yesterday := print ["No date given. Processing data from yesterday."] ;;;
                   ret (Args.yesterday_range now) in
  match startArg, endArg with
  | Some s, Some e =>
      if Args.given startArg && Args.given endArg then
        match Args.strptime s with
        | Err err => say (DatesError err) ;;; liftR (Err (DateError err))
        | Ok startDate =>
            match Args.strptime e with
            | Err err => say (DatesError err) ;;; liftR (Err (DateError err))
            | Ok endDate => ret (startDate, endDate)
            end
        end
      else yesterday
  | _, _ => yesterday
  end.

(** [str(date)] of a naive datetime. *)
Definition naive (date : Z) : string := Clock.strftime (Clock.civil_of_seconds date).

(** ** The loop *)

(** Lines 164-210 with their prints. *)
Definition iterationLog (ls : LoopState) (injectionData consumptionData : json)
  : logged LoopState :=
  injectionTs <-- liftR (fromLoop (Loop.lift (number_at injectionData "start_ts"))) ;;
  let injectionDate := Clock.fromtimestamp injectionTs in
  consumptionTs <-- liftR (fromLoop (Loop.lift (number_at consumptionData "start_ts"))) ;;
  let consumptionDate := Clock.fromtimestamp consumptionTs in
  if negb (Clock.datetime_eqb injectionDate consumptionDate) then
    print ["Error, injection and consumption date does not match"] ;;;
    liftR (Err (LoopFailure DatesDoNotMatch))
  else
    print [] ;;;
    print ["Processing Date: "; Clock.strftime injectionDate] ;;;
    injectionSum <-- liftR (fromLoop (Loop.lift (number_at injectionData "sum"))) ;;
    let injectedEnergy := Battery.injectedEnergy (battery ls) injectionSum in
    consumptionSum <-- liftR (fromLoop (Loop.lift (number_at consumptionData "sum"))) ;;
    let consumedEnergy := Battery.consumedEnergy (battery ls) consumptionSum in
    print ["Injected from Linky :"; str injectedEnergy; "Wh"] ;;;
    print ["Consumed from Linky :"; str consumedEnergy; "Wh"] ;;;
    let stock := Battery.previousBatteryStock (battery ls) + injectedEnergy in
    print ["Battery Stock after injection: "; str stock] ;;;
    (if stock >=? consumedEnergy then
       print ["Battery Stock after consumption: "; str (stock - consumedEnergy)]
     else
       print ["Energy taken from Enedis: "; str (consumedEnergy - stock)] ;;;
       print ["Battery Stock after consumption: "; str 0]) ;;;
    let s := Battery.hour (battery ls) injectionSum consumptionSum in
    let start := Clock.strftime injectionDate ++ Clock.GMT in
    ret {| battery := s;
           statsBatteryStockList :=
             (statsBatteryStockList ls ++ [mkStat start "state" (Battery.previousBatteryStock s)])%list;
           statsBatteryOutList :=
             (statsBatteryOutList ls ++ [mkStat start "sum" (Battery.previousBatteryOut s)])%list;
           statsEnedisOutList :=
             (statsEnedisOutList ls ++ [mkStat start "sum" (Battery.previousEnedisOut s)])%list |}.

(** Line 163. *)
Fixpoint loopLog (ls : LoopState) (pairs : list (json * json)) : logged LoopState :=
  match pairs with
  | [] => ret ls
  | (injectionData, consumptionData) :: rest =>
      ls' <-- iterationLog ls injectionData consumptionData ;; loopLog ls' rest
  end.

(** ** The stock the console reports after each hour *)

(** [s] without the prefix [p], when it starts with [p]. *)
Fixpoint strip_prefix (p s : string) : option string :=
  match p, s with
  | EmptyString, _ => Some s
  | String a p', String b s' => if Ascii.eqb a b then strip_prefix p' s' else None
  | String _ _, EmptyString => None
  end.

(** The line of lines 191 and 201, up to the value. *)
Definition stockAfterConsumption : string := "Battery Stock after consumption:  ".

(** The values the lines "Battery Stock after consumption: v" report,
    in the order they are printed. *)
Fixpoint stock_reports (lines : list line) : list string :=
  match lines with
  | [] => []
  | Text s :: rest =>
      match strip_prefix stockAfterConsumption s with
      | Some v => v :: stock_reports rest
      | None => stock_reports rest
      end
  | _ :: rest => stock_reports rest
  end.

(** ** Printing does not change the outcome *)

(** Reduce the writer monad on explicit prints, leaving the printed
    values alone. *)
Ltac log_cbn := cbn [bind bindL val out liftR ret print say fromLoop fromSeeds fromPy Loop.lift
                     Seeds.liftPy app statsBatteryStockList].

Lemma val_bindL {A B} (m : logged A) (k : A -> logged B) :
  val (bindL m k) = bind (val m) (fun a => val (k a)).
Proof. unfold bindL. now destruct (val m). Qed.

Lemma bind_congr {A B E} (r r' : result A E) (f g : A -> result B E) :
  r = r' -> (forall a, f a = g a) -> bind r f = bind r' g.
Proof. intros -> H. destruct r'; simpl; auto. Qed.

Lemma val_print_seq {A} (args : list string) (k : logged A) : val (print args ;;; k) = val k.
Proof. reflexivity. Qed.

Lemma fromLoop_bind {A B} (r : result A LoopError) (k : A -> result B LoopError) :
  fromLoop (bind r k) = bind (fromLoop r) (fun a => fromLoop (k a)).
Proof. now destruct r. Qed.

Lemma val_getStatisticsLog {Server} `{HomeAssistantApi Server} (srv : Server)
  (sensorId : string) (date : Z) (endate : option Z) :
  val (getStatisticsLog srv sensorId date endate) = getStatistics srv sensorId date endate.
Proof.
  unfold getStatisticsLog, getStatistics. destruct (long_term_stats _ _) as [status data].
  destruct (Z.eqb status 200); [|reflexivity]. cbn. now destruct (getitem data "message").
Qed.

Lemma val_readBatteryStockLog (m : option json) :
  val (readBatteryStockLog m) = fromSeeds (Seeds.readBatteryStock m).
Proof.
  unfold readBatteryStockLog, Seeds.readBatteryStock.
  destruct m as [m|]; [|reflexivity]. destruct (negb (truthy m)); [reflexivity|].
  cbn. destruct (getitem m "state") as [st|]; [|reflexivity]. cbn.
  destruct (negb (truthy st)); [reflexivity|]. cbn. now destruct (as_number st).
Qed.

Lemma val_readIndexLog (msgs : IndexMessages) (m : option json) :
  val (readIndexLog msgs m) = fromSeeds (Seeds.readIndex m).
Proof.
  unfold readIndexLog, Seeds.readIndex.
  destruct m as [m|]; [|reflexivity]. destruct (negb (truthy m)); [reflexivity|].
  cbn. destruct (getitem m "sum") as [sm|]; [|reflexivity]. cbn.
  destruct (negb (truthy sm)); [reflexivity|]. cbn. now destruct (as_number sm).
Qed.

Lemma val_readCurveLog (msg : string) (notFound : Seeds.SeedError) (m : option json) :
  val (readCurveLog msg notFound m) = fromSeeds (Seeds.readCurve notFound m).
Proof. destruct m as [v|]; [|reflexivity]. simpl. now destruct (truthy v). Qed.

Lemma val_dateRangeLog (startArg endArg : option string) (now : Z) :
  val (dateRangeLog startArg endArg now) = fromArgs (Args.dateRange startArg endArg now).
Proof.
  unfold dateRangeLog, Args.dateRange.
  destruct startArg as [s|], endArg as [e|]; try reflexivity.
  destruct (_ && _); [|reflexivity]. destruct (Args.strptime s); [|reflexivity].
  cbn. now destruct (Args.strptime e).
Qed.

Lemma val_iterationLog (ls : LoopState) (i c : json) :
  val (iterationLog ls i c) = fromLoop (iteration ls i c).
Proof.
  unfold iterationLog, iteration.
  destruct (number_at i "start_ts") as [a|]; [|reflexivity]. log_cbn.
  destruct (number_at c "start_ts") as [b|]; [|reflexivity]. log_cbn.
  destruct (negb _); [reflexivity|]. log_cbn.
  destruct (number_at i "sum") as [x|]; [|reflexivity]. log_cbn.
  destruct (number_at c "sum") as [y|]; [|reflexivity]. log_cbn.
  destruct (_ >=? _); reflexivity.
Qed.

Lemma val_loopLog (ls : LoopState) (pairs : list (json * json)) :
  val (loopLog ls pairs) = fromLoop (loop ls pairs).
Proof.
  revert ls; induction pairs as [|[i c] rest IH]; intros ls; [reflexivity|].
  cbn [loopLog loop]. rewrite val_bindL, fromLoop_bind, val_iterationLog.
  apply bind_congr; [reflexivity | exact IH].
Qed.

Create HintDb console.
#[export] Hint Resolve val_getStatisticsLog val_readBatteryStockLog val_readIndexLog
  val_readCurveLog val_dateRangeLog : console.

(** One monadic step of [prepareLog] against the same step of
    [prepare]: the prints are dropped and the two steps agree. *)
Ltac val_step :=
  rewrite ?val_print_seq, val_bindL; apply bind_congr;
  [solve [auto with console | reflexivity] | intros ?; cbv beta iota].

(** ** The script up to the end of the loop *)

(** ** Lemmas on the stock lines *)

Lemma stock_reports_app (l1 l2 : list line) :
  stock_reports (l1 ++ l2)%list = (stock_reports l1 ++ stock_reports l2)%list.
Proof.
  induction l1 as [|[t| |] l1 IH]; cbn [app stock_reports]; try exact IH; [reflexivity|].
  destruct (strip_prefix stockAfterConsumption t); cbn [app]; now rewrite IH.
Qed.

Lemma strip_prefix_app (p x : string) : strip_prefix p (p ++ x) = Some x.
Proof. induction p as [|a p IH]; simpl; [now destruct x | now rewrite Ascii.eqb_refl]. Qed.

Lemma bindL_Ok {A B} (m : logged A) (k : A -> logged B) (b : B) :
  val (bindL m k) = Ok b ->
  exists a, val m = Ok a /\ val (k a) = Ok b /\ out (bindL m k) = (out m ++ out (k a))%list.
Proof. unfold bindL. destruct (val m) as [a|e]; simpl; [eauto | discriminate]. Qed.

Lemma stock_reports_skip (t : string) (rest : list line) :
  strip_prefix stockAfterConsumption t = None -> stock_reports (Text t :: rest) = stock_reports rest.
Proof. intros H. cbn [stock_reports]. now rewrite H. Qed.

Lemma stock_line_hit (v : string) (rest : list line) :
  stock_reports (Text (String.concat " " ["Battery Stock after consumption: "; v]) :: rest) =
  v :: stock_reports rest.
Proof.
  change (String.concat " " ["Battery Stock after consumption: "; v]) with (stockAfterConsumption ++ v).
  cbn [stock_reports]. now rewrite strip_prefix_app.
Qed.

(** An hour prints the stock of its stock record, and only that, on a
    "Battery Stock after consumption" line. *)
Lemma iterationLog_reports (ls ls' : LoopState) (i c : json) :
  val (iterationLog ls i c) = Ok ls' ->
  (map (fun r => str (value r)) (statsBatteryStockList ls) ++
   stock_reports (out (iterationLog ls i c)))%list =
  map (fun r => str (value r)) (statsBatteryStockList ls').
Proof.
  unfold iterationLog.
  destruct (number_at i "start_ts") as [a|]; [|discriminate].
  destruct (number_at c "start_ts") as [b|]; log_cbn; [|discriminate].
  destruct (negb _); log_cbn; [discriminate|].
  destruct (number_at i "sum") as [x|]; log_cbn; [|discriminate].
  destruct (number_at c "sum") as [y|]; log_cbn; [|discriminate].
  set (st := Battery.previousBatteryStock (battery ls) + Battery.injectedEnergy (battery ls) x).
  set (cs := Battery.consumedEnergy (battery ls) y).
  destruct (Z.geb_spec st cs) as [Hge|Hlt]; log_cbn; intros H; injection H as <-; log_cbn;
    repeat (rewrite stock_reports_skip by reflexivity); rewrite stock_line_hit;
    cbn [stock_reports]; rewrite map_app; cbn [map value].
  - replace (st - cs) with (Battery.previousBatteryStock (Battery.hour (battery ls) x y));
      [reflexivity | rewrite Battery.hour_stock; unfold st, cs in *; lia].
  - replace 0 with (Battery.previousBatteryStock (Battery.hour (battery ls) x y)) at 1;
      [reflexivity | rewrite Battery.hour_stock; unfold st, cs in *; lia].
Qed.

Lemma loopLog_reports (ls ls' : LoopState) (pairs : list (json * json)) :
  val (loopLog ls pairs) = Ok ls' ->
  (map (fun r => str (value r)) (statsBatteryStockList ls) ++
   stock_reports (out (loopLog ls pairs)))%list =
  map (fun r => str (value r)) (statsBatteryStockList ls').
Proof.
  revert ls; induction pairs as [|[i c] rest IH]; intros ls H.
  - cbn in H. injection H as <-. cbn. apply app_nil_r.
  - cbn [loopLog] in *. destruct (bindL_Ok _ _ _ H) as (a & Ha & Hk & ->).
    rewrite stock_reports_app, app_assoc, (iterationLog_reports _ _ _ _ Ha). exact (IH a Hk).
Qed.

(** The steps before the loop print no stock line. *)
Lemma print_quiet (args : list string) :
  strip_prefix stockAfterConsumption (String.concat " " args) = None ->
  stock_reports (out (print args)) = [].
Proof. intros H. cbn [print say out stock_reports]. now rewrite H. Qed.

Lemma quiet_getStatisticsLog {Server} `{HomeAssistantApi Server} (srv : Server)
  (sensorId : string) (date : Z) (endate : option Z) :
  stock_reports (out (getStatisticsLog srv sensorId date endate)) = [].
Proof.
  unfold getStatisticsLog. destruct (long_term_stats _ _) as [status data].
  destruct (Z.eqb status 200); log_cbn; [destruct (getitem data "message")|]; reflexivity.
Qed.

Lemma quiet_readBatteryStockLog (m : option json) :
  stock_reports (out (readBatteryStockLog m)) = [].
Proof.
  unfold readBatteryStockLog. destruct m as [m|]; [|reflexivity].
  destruct (negb (truthy m)); [reflexivity|]. log_cbn.
  destruct (getitem m "state") as [st|]; log_cbn; [|reflexivity].
  destruct (negb (truthy st)); log_cbn; [reflexivity|].
  destruct (as_number st); reflexivity.
Qed.

Lemma quiet_readIndexLog (msgs : IndexMessages) (m : option json) :
  strip_prefix stockAfterConsumption (notFoundMsg msgs) = None ->
  (forall x, strip_prefix stockAfterConsumption (foundMsg msgs ++ x) = None) ->
  stock_reports (out (readIndexLog msgs m)) = [].
Proof.
  intros Hn Hf. unfold readIndexLog.
  assert (Q : stock_reports (out (print [notFoundMsg msgs] ;;; ret 0)) = []).
  { log_cbn. cbn [String.concat stock_reports]. now rewrite Hn. }
  destruct m as [m|]; [|exact Q].
  destruct (negb (truthy m)); [exact Q|]. log_cbn.
  destruct (getitem m "sum") as [sm|]; log_cbn; [|reflexivity].
  destruct (negb (truthy sm)); log_cbn; [exact Q|].
  destruct (as_number sm); log_cbn; [|reflexivity].
  cbn [String.concat stock_reports]. now rewrite Hf.
Qed.

Lemma quiet_readCurveLog (msg : string) (notFound : Seeds.SeedError) (m : option json) :
  strip_prefix stockAfterConsumption msg = None ->
  stock_reports (out (readCurveLog msg notFound m)) = [].
Proof.
  intros Hm. unfold readCurveLog. destruct m as [v|]; [destruct (truthy v)|]; log_cbn; try reflexivity;
    cbn [String.concat stock_reports]; now rewrite Hm.
Qed.

Lemma quiet_dateRangeLog (startArg endArg : option string) (now : Z) :
  stock_reports (out (dateRangeLog startArg endArg now)) = [].
Proof.
  unfold dateRangeLog. destruct startArg as [s|], endArg as [e|]; try reflexivity.
  destruct (_ && _); [|reflexivity].
  destruct (Args.strptime s); [destruct (Args.strptime e)|]; reflexivity.
Qed.

(** Prove that one step of the script before the loop prints no stock
    line. *)
Ltac quiet_tac :=
  first [ reflexivity
        | apply quiet_getStatisticsLog
        | apply quiet_readBatteryStockLog
        | apply quiet_dateRangeLog
        | apply quiet_readIndexLog; [reflexivity | intros; reflexivity]
        | apply quiet_readCurveLog; reflexivity
        | apply print_quiet; reflexivity ].

(** Walk one successful step of the script: its lines are those of the
    step, which prints no stock line, then those of the rest. *)
Ltac report_step :=
  match goal with
  | H : val (bindL ?m ?k) = Ok _ |- context [out (bindL ?m ?k)] =>
      let a := fresh "a" in let Ha := fresh "Ha" in let Hk := fresh "Hk" in
      let E := fresh "E" in
      destruct (bindL_Ok m k _ H) as (a & Ha & Hk & E); clear H; rename Hk into H;
      rewrite E, stock_reports_app;
      let Q := fresh "Q" in
      assert (Q : stock_reports (out m) = []) by quiet_tac;
      rewrite Q; cbn [app]; clear Q E; cbv beta iota in H |- *
  end.

Section Run.
Context {Server : Type} {api : HomeAssistantApi Server}.

(** Lines 77-210 with their prints. *)
Definition prepareLog (srv : Server) (env : Environment) (startArg endArg : option string)
  (now : Z) : logged LoopState :=
  if negb (Args.given (HA_TOKEN env) && Args.given (HA_URL env)) then
    print ["HA_TOKEN or HA_URL missing"] ;;; liftR (Err ConfigMissing)
  else
    '(startDate, endDate) <-- dateRangeLog startArg endArg now ;;
    print ["processing Data from "; naive startDate; " to "; naive endDate] ;;;
    print [] ;;;
    print ["Retrieving last stock of the virtual battery"] ;;;
    stockMsg <-- getStatisticsLog srv HA_STAT_BATTERY_STOCK startDate None ;;
    previousBatteryStock <-- readBatteryStockLog stockMsg ;;
    print [] ;;;
    print ["Retrieving last battery out index"] ;;;
    outMsg <-- getStatisticsLog srv HA_STAT_BATTERY_OUT startDate None ;;
    previousBatteryOut <-- readIndexLog batteryOutMessages outMsg ;;
    print [] ;;;
    print ["Retrieving last Enedis out index"] ;;;
    enedisMsg <-- getStatisticsLog srv HA_STAT_ENEDIS_OUT startDate None ;;
    previousEnedisOut <-- readIndexLog enedisOutMessages enedisMsg ;;
    print [] ;;;
    print ["Retrieving last injection data"] ;;;
    injectionMsg <-- getStatisticsLog srv HA_STAT_PROD_CURVE startDate None ;;
    previousInjectionIndex <-- readIndexLog injectionMessages injectionMsg ;;
    injectionResp <--
      getStatisticsLog srv HA_STAT_PROD_CURVE (startDate + 3600) (Some (endDate + 3600)) ;;
    injectionDataList <--
      readCurveLog "ERROR: Injection data not found" Seeds.InjectionDataNotFound injectionResp ;;
    print [] ;;;
    print ["Retrieving last consumption data"] ;;;
    consumptionMsg <-- getStatisticsLog srv HA_STAT_CONSUMPTION_CURVE startDate None ;;
    previousConsumtionIndex <-- readIndexLog consumptionMessages consumptionMsg ;;
    consumptionResp <--
      getStatisticsLog srv HA_STAT_CONSUMPTION_CURVE (startDate + 3600) (Some (endDate + 3600)) ;;
    consumptionDataList <--
      readCurveLog "ERROR: Consumption data not found" Seeds.ConsumptionDataNotFound
        consumptionResp ;;
    print [] ;;;
    print ["Starting from battery stock "; str previousBatteryStock; "Wh"] ;;;
    injectionRows <-- liftR (fromPy (Seeds.iter_json injectionDataList)) ;;
    consumptionRows <-- liftR (fromPy (Seeds.iter_json consumptionDataList)) ;;
    loopLog
      (mkLoopState (Battery.mkBatteryState previousBatteryStock previousBatteryOut
                      previousEnedisOut previousInjectionIndex previousConsumtionIndex) [] [] [])
      (combine injectionRows consumptionRows).

(** Lines 231-233, 246-248, 261-263: the line printed after a POST. *)
Definition report_line (r : report) : line :=
  match r with
  | Sent id => Text ("Data sent to Home Assistant (" ++ id ++ ")")
  | SendFailed id status => PostError id status
  end.

(** Lines 77-263 with their prints: the server after the run, how it
    ends, and the lines printed. *)
Definition mainLog (srv : Server) (env : Environment) (startArg endArg : option string) (now : Z)
  : Server * Exit * list line :=
  let l := prepareLog srv env startArg endArg now in
  match val l with
  | Err e => (srv, Exit1 e, out l)
  | Ok ls =>
      let '(srv', reports) := publish srv ls in
      (srv', Exit0, (out l ++ [Text ""; Text "Push data to HA"] ++ map report_line reports)%list)
  end.

(** Printing never changes the outcome of the script up to the end of
    the loop. *)
Lemma val_prepareLog (srv : Server) (env : Environment) (startArg endArg : option string)
  (now : Z) :
  val (prepareLog srv env startArg endArg now) = prepare srv env startArg endArg now.
Proof.
  unfold prepareLog, prepare. destruct (negb _); [reflexivity|].
  rewrite val_bindL. apply bind_congr; [auto with console | intros [startDate endDate]].
  cbv beta iota. repeat val_step.
  rewrite ?val_print_seq. unfold Loop.process. apply val_loopLog.
Qed.

Lemma quiet_reports (rs : list report) : stock_reports (map report_line rs) = [].
Proof. induction rs as [|[id|id st] rs IH]; [reflexivity | | exact IH]. exact IH. Qed.

(** The lines of a successful run up to the end of the loop report, hour
    by hour, the stock records. *)
Lemma prepareLog_reports (srv : Server) (env : Environment) (startArg endArg : option string)
  (now : Z) (ls : LoopState) :
  val (prepareLog srv env startArg endArg now) = Ok ls ->
  stock_reports (out (prepareLog srv env startArg endArg now)) =
  map (fun r => str (value r)) (statsBatteryStockList ls).
Proof.
  unfold prepareLog. destruct (negb _); [discriminate|]. intros H.
  report_step. destruct a as [startDate endDate]. cbv beta iota in H |- *.
  repeat report_step. exact (loopLog_reports _ _ _ H).
Qed.

(** C21: What the console says of the stock is what is sent to HA: on
    every run that gets to the write-back, the values the lines "Battery
    Stock after consumption" print (lines 191 and 201) are, hour by hour
    and in order, the values of the battery-stock series posted
    (lines 203-204, 250-259); no other line of the run is such a line. *)
Theorem console_stock_matches_posted (srv : Server) (env : Environment)
  (startArg endArg : option string) (now : Z) (ls : LoopState) :
  prepare srv env startArg endArg now = Ok ls ->
  let '(_, _, lines) := mainLog srv env startArg endArg now in
  stock_reports lines = map (fun r => str (value r)) (stats (batteryStockPayload ls)).
Proof.
  intros H. pose proof (val_prepareLog srv env startArg endArg now) as V. rewrite H in V.
  unfold mainLog. rewrite V. destruct (publish srv ls) as [srv' reports].
  rewrite !stock_reports_app, quiet_reports, (prepareLog_reports _ _ _ _ _ _ V).
  cbn. apply app_nil_r.
Qed.

End Run.

(** The claim at the run of spec scenario 6: both hours are reported as
    posted. *)
Lemma console_stock_matches_posted_witness :
  prepare (mkRecorder scenario6_answers []) configured None None 1700000000 =
    Ok (Loop.expected (Battery.mkBatteryState 1000 0 0 0 0)
          [(1699999200, (2000, 3000)); (1700002800, (2000, 4000))]) /\
  (let '(_, _, lines) := mainLog (mkRecorder scenario6_answers []) configured None None 1700000000 in
   stock_reports lines =
   map (fun r => str (value r))
     (stats (batteryStockPayload (Loop.expected (Battery.mkBatteryState 1000 0 0 0 0)
          [(1699999200, (2000, 3000)); (1700002800, (2000, 4000))])))).
Proof.
  assert (H : prepare (mkRecorder scenario6_answers []) configured None None 1700000000 =
    Ok (Loop.expected (Battery.mkBatteryState 1000 0 0 0 0)
          [(1699999200, (2000, 3000)); (1700002800, (2000, 4000))])) by (vm_compute; reflexivity).
  split; [exact H | exact (console_stock_matches_posted _ _ _ _ _ _ H)].
Defined.

End Console.
